(** * fn-analyzer: shallow embedding of the benchmarking core

    Sources: pkg/utils/sliceutils.go, internal/analyzer/analyzer.go,
    internal/analyzer/query.go, internal/report/json.go,
    internal/report/csv.go, internal/config/config.go,
    internal/model/model.go, and the query analysis helpers
    [AnalyzeQueryComplexity] and [AnalyzeTablesInQuery].

    Conventions of the embedding.
    - [time.Duration] is a Go [int64] of nanoseconds: a [Z] with the
      two's-complement wrap-around of Go's integer arithmetic written out
      ([wrap64]).
    - Go [float64] arithmetic, where it decides a result, is modelled
      bit-exactly: [float64] is an IEEE binary64 value (a rational that
      the rounding produced, an infinity or NaN), every operation rounds
      its exact result to nearest, ties to even, with 53 significant bits
      and subnormals down to 2^-1074, and overflows to an infinity; the
      conversion back to an integer truncates and yields [math.MinInt64]
      for NaN, infinities and out-of-range values (amd64).  This covers
      the percentile index of [CalculatePercentile]
      ([int(math.Floor(float64(n) * percentile / 100.0))]) and the
      standard deviations
      ([time.Duration(math.Sqrt(float64(s) / float64(n)))]).  The
      indices [int(float64(n) * 0.5 / 0.95 / 0.99)] of [CalculateStats]
      are modelled by the exact [n * 50 / 100] etc.: the doubles nearest
      to 0.95 and 0.99 are below them by a relative error smaller than
      half a unit in the last place, so the rounded product is the exact
      product whenever the latter is an integer, and otherwise both lie
      strictly between the same two integers.  The millisecond
      conversions of the reports are exact rationals ([Q]).
    - [sort.Slice] on durations is modelled by an insertion sort; on a
      total order every sorting algorithm returns the same list. *)

From Stdlib Require Import Ascii.
From Stdlib Require Import String.
From Stdlib Require Import List ZArith QArith Qround Qpower Lia Bool.
From Stdlib Require Import Permutation Sorted.
Import ListNotations.

Open Scope Z_scope.

(* ------------------------------------------------------------------ *)
(** ** Go integers *)

Definition two63 : Z := 2 ^ 63.
Definition two64 : Z := 2 ^ 64.

(** Reduction of an integer to the [int64] range, as Go's arithmetic does. *)
Definition wrap64 (z : Z) : Z :=
  let r := z mod two64 in
  if r >=? two63 then r - two64 else r.

Definition dur_add (a b : Z) : Z := wrap64 (a + b).
Definition dur_sub (a b : Z) : Z := wrap64 (a - b).
Definition dur_mul (a b : Z) : Z := wrap64 (a * b).

(** Go's integer division truncates toward zero. *)
Definition dur_div (a b : Z) : Z := wrap64 (Z.quot a b).

(** [time.Hour] in nanoseconds. *)
Definition Hour : Z := 3600000000000.

(* ------------------------------------------------------------------ *)
(** ** Go [float64] *)

(** A Go [float64]: a finite value, an infinity, or NaN.  Finite values
    are rationals; the sign of a zero is not kept. *)
Inductive float64 := Fin (q : Q) | Inf (neg : bool) | NaN.

Definition pow2 (e : Z) : Q := Qpower (inject_Z 2) e.

(** [floor(log2 q)] for a positive rational [q]. *)
Definition qlog2 (q : Q) : Z :=
  let l := Z.log2 (Qnum q) - Z.log2 (Zpos (Qden q)) in
  if Qle_bool (pow2 l) q then l else l - 1.

(** Rounding to the nearest integer, ties to even. *)
Definition rne (y : Q) : Z :=
  let f := Qfloor y in
  match Qcompare (y - inject_Z f)%Q (1 # 2) with
  | Lt => f
  | Gt => f + 1
  | Eq => if Z.even f then f else f + 1
  end.

(** The exponent of the last significand bit of a positive [q] in
    binary64: 53 significant bits, down to the subnormal limit 2^-1074. *)
Definition fexp (q : Q) : Z := Z.max (qlog2 q - 52) (-1074).

(** Rounding of a positive rational to binary64 (round to nearest, ties
    to even); [neg] is the sign of the result. *)
Definition round_pos (q : Q) (neg : bool) : float64 :=
  let e := fexp q in
  let v := (inject_Z (rne (q / pow2 e)%Q) * pow2 e)%Q in
  if Qle_bool (pow2 1024) v then Inf neg else Fin (if neg then (- v)%Q else v).

Definition round64 (q : Q) : float64 :=
  match Qcompare q 0 with
  | Eq => Fin 0
  | Gt => round_pos q false
  | Lt => round_pos (- q)%Q true
  end.

(** [float64(z)] for an integer [z]. *)
Definition f64_of_Z (z : Z) : float64 := round64 (inject_Z z).

Definition Qneg_bool (q : Q) : bool := negb (Qle_bool 0 q).


(** [x / y]; a zero divisor counts as +0. *)
Definition f64_div (x y : float64) : float64 :=
  match x, y with
  | NaN, _ | _, NaN => NaN
  | Fin a, Fin b =>
      if Qeq_bool b 0 then (if Qeq_bool a 0 then NaN else Inf (Qneg_bool a))
      else round64 (a / b)%Q
  | Inf s, Fin b => Inf (xorb s (Qneg_bool b))
  | Fin _, Inf _ => Fin 0
  | Inf _, Inf _ => NaN
  end.


(** [math.Sqrt] of a positive [q]: the significand is the square root of
    [q / 4^e] rounded to nearest, ties to even ([Z.sqrt] of the floor is
    the floor of the square root). *)
Definition sqrt_pos (q : Q) : float64 :=
  let e := Z.div (qlog2 q) 2 - 52 in
  let y := (q / pow2 (2 * e))%Q in
  let s := Z.sqrt (Qfloor y) in
  let h := (inject_Z s + (1 # 2))%Q in
  let m := match Qcompare y (h * h) with
           | Lt => s
           | Gt => s + 1
           | Eq => if Z.even s then s else s + 1
           end in
  Fin (inject_Z m * pow2 e)%Q.

Definition f64_sqrt (x : float64) : float64 :=
  match x with
  | NaN => NaN
  | Inf false => Inf false
  | Inf true => NaN
  | Fin q =>
      match Qcompare q 0 with
      | Lt => NaN
      | Eq => Fin 0
      | Gt => sqrt_pos q
      end
  end.

(** Truncation toward zero. *)
Definition Qtrunc (q : Q) : Z := if Qle_bool 0 q then Qfloor q else - Qfloor (- q)%Q.

(** The conversion of a [float64] to [int64] ([int(x)],
    [time.Duration(x)]): truncation toward zero; NaN, the infinities and
    values out of the int64 range give [math.MinInt64] (the amd64
    conversion instruction). *)
Definition f64_to_int64 (x : float64) : Z :=
  match x with
  | Fin q => let t := Qtrunc q in
             if (- two63 <=? t) && (t <? two63) then t else - two63
  | _ => - two63
  end.

(** [time.Duration(math.Sqrt(float64(s) / float64(n)))]. *)
Definition sqrt_div_to_duration (s n : Z) : Z :=
  f64_to_int64 (f64_sqrt (f64_div (f64_of_Z s) (f64_of_Z n))).

(* ------------------------------------------------------------------ *)
(** ** Sorting ([sort.Slice] with [durations[i] < durations[j]]) *)

Fixpoint insert_dur (x : Z) (l : list Z) : list Z :=
  match l with
  | [] => [x]
  | y :: l' => if x <=? y then x :: y :: l' else y :: insert_dur x l'
  end.

Fixpoint sort_durations (l : list Z) : list Z :=
  match l with
  | [] => []
  | x :: l' => insert_dur x (sort_durations l')
  end.


(* ------------------------------------------------------------------ *)
(** ** Stats engine (pkg/utils/sliceutils.go) *)

(** [if idx >= len(durations) { idx = len(durations) - 1 }] *)
Definition clamp_index (idx n : Z) : Z := if idx >=? n then n - 1 else idx.



(** Sum of squared deviations, as the two loops of the source compute it
    ([diff := d - mean; sum += diff.Nanoseconds() * diff.Nanoseconds()]). *)
Definition sum_squares (durations : list Z) (mean : Z) : Z :=
  fold_left (fun acc d => let diff := dur_sub d mean in
                          dur_add acc (dur_mul diff diff)) durations 0.

Definition CalculateStandardDeviation (durations : list Z) (mean : Z) : Z :=
  if (Z.of_nat (length durations) <=? 1) then 0
  else
    let sum := sum_squares durations mean in
    sqrt_div_to_duration sum (Z.of_nat (length durations) - 1).

Record Stats := mkStats {
  st_Min : Z; st_Max : Z; st_Mean : Z; st_Median : Z; st_StdDev : Z;
  st_P95 : Z; st_P99 : Z; st_Samples : Z }.

Definition zero_Stats : Stats := mkStats 0 0 0 0 0 0 0 0.

Definition CalculateStats (durations : list Z) : Stats :=
  match durations with
  | [] => zero_Stats
  | _ =>
      let sorted := sort_durations durations in
      let n := Z.of_nat (length sorted) in
      let total := fold_left dur_add sorted 0 in
      let mean := dur_div total n in
      let sumSquares := sum_squares sorted mean in
      let stdDev := sqrt_div_to_duration sumSquares n in
      let p50Idx := clamp_index (n * 50 / 100) n in
      let p95Idx := clamp_index (n * 95 / 100) n in
      let p99Idx := clamp_index (n * 99 / 100) n in
      mkStats (nth 0 sorted 0) (nth (Z.to_nat (n - 1)) sorted 0) mean
              (nth (Z.to_nat p50Idx) sorted 0) stdDev
              (nth (Z.to_nat p95Idx) sorted 0) (nth (Z.to_nat p99Idx) sorted 0) n
  end.

(* ------------------------------------------------------------------ *)
(** ** Data model (internal/model/model.go) *)

(** [QueryExecution].  [ex_Error] is the Go [error] value ([None] for
    [nil]), represented by its message; [ex_ErrorMessage] is the string
    field.  [time.Time] values are nanosecond readings of the clock. *)
Record QueryExecution := mkQueryExecution {
  ex_StartTime : Z;
  ex_Duration : Z;
  ex_RowCount : Z;
  ex_Error : option string;
  ex_ErrorMessage : string }.

(** [QueryResult], without the fields the core copies from the query and
    never reads again (description, SQL text, weight, complexity tag,
    explain plan).  Counters are Go [int]s bounded by the iteration count,
    so no wrap-around is written for them. *)
Record QueryResult := mkQueryResult {
  Name : string;
  Executions : list QueryExecution;
  SuccessfulExecutions : Z;
  Errors : Z;
  ErrorDetails : list string;
  TotalDuration : Z;
  AvgDuration : Z;
  MinDuration : Z;
  MaxDuration : Z;
  MedianDuration : Z;
  StdDevDuration : Z;
  Percentile95 : Z;
  Percentile99 : Z;
  RowsAffected : Z;
  FirstExecutedAt : Z;
  LastExecutedAt : Z }.

Definition set_Executions (r : QueryResult) (v : list QueryExecution) : QueryResult :=
  mkQueryResult (Name r) v (SuccessfulExecutions r) (Errors r) (ErrorDetails r) (TotalDuration r) (AvgDuration r) (MinDuration r) (MaxDuration r) (MedianDuration r) (StdDevDuration r) (Percentile95 r) (Percentile99 r) (RowsAffected r) (FirstExecutedAt r) (LastExecutedAt r).
Definition set_SuccessfulExecutions (r : QueryResult) (v : Z) : QueryResult :=
  mkQueryResult (Name r) (Executions r) v (Errors r) (ErrorDetails r) (TotalDuration r) (AvgDuration r) (MinDuration r) (MaxDuration r) (MedianDuration r) (StdDevDuration r) (Percentile95 r) (Percentile99 r) (RowsAffected r) (FirstExecutedAt r) (LastExecutedAt r).
Definition set_Errors (r : QueryResult) (v : Z) : QueryResult :=
  mkQueryResult (Name r) (Executions r) (SuccessfulExecutions r) v (ErrorDetails r) (TotalDuration r) (AvgDuration r) (MinDuration r) (MaxDuration r) (MedianDuration r) (StdDevDuration r) (Percentile95 r) (Percentile99 r) (RowsAffected r) (FirstExecutedAt r) (LastExecutedAt r).
Definition set_ErrorDetails (r : QueryResult) (v : list string) : QueryResult :=
  mkQueryResult (Name r) (Executions r) (SuccessfulExecutions r) (Errors r) v (TotalDuration r) (AvgDuration r) (MinDuration r) (MaxDuration r) (MedianDuration r) (StdDevDuration r) (Percentile95 r) (Percentile99 r) (RowsAffected r) (FirstExecutedAt r) (LastExecutedAt r).
Definition set_TotalDuration (r : QueryResult) (v : Z) : QueryResult :=
  mkQueryResult (Name r) (Executions r) (SuccessfulExecutions r) (Errors r) (ErrorDetails r) v (AvgDuration r) (MinDuration r) (MaxDuration r) (MedianDuration r) (StdDevDuration r) (Percentile95 r) (Percentile99 r) (RowsAffected r) (FirstExecutedAt r) (LastExecutedAt r).
Definition set_AvgDuration (r : QueryResult) (v : Z) : QueryResult :=
  mkQueryResult (Name r) (Executions r) (SuccessfulExecutions r) (Errors r) (ErrorDetails r) (TotalDuration r) v (MinDuration r) (MaxDuration r) (MedianDuration r) (StdDevDuration r) (Percentile95 r) (Percentile99 r) (RowsAffected r) (FirstExecutedAt r) (LastExecutedAt r).
Definition set_MinDuration (r : QueryResult) (v : Z) : QueryResult :=
  mkQueryResult (Name r) (Executions r) (SuccessfulExecutions r) (Errors r) (ErrorDetails r) (TotalDuration r) (AvgDuration r) v (MaxDuration r) (MedianDuration r) (StdDevDuration r) (Percentile95 r) (Percentile99 r) (RowsAffected r) (FirstExecutedAt r) (LastExecutedAt r).
Definition set_MaxDuration (r : QueryResult) (v : Z) : QueryResult :=
  mkQueryResult (Name r) (Executions r) (SuccessfulExecutions r) (Errors r) (ErrorDetails r) (TotalDuration r) (AvgDuration r) (MinDuration r) v (MedianDuration r) (StdDevDuration r) (Percentile95 r) (Percentile99 r) (RowsAffected r) (FirstExecutedAt r) (LastExecutedAt r).
Definition set_MedianDuration (r : QueryResult) (v : Z) : QueryResult :=
  mkQueryResult (Name r) (Executions r) (SuccessfulExecutions r) (Errors r) (ErrorDetails r) (TotalDuration r) (AvgDuration r) (MinDuration r) (MaxDuration r) v (StdDevDuration r) (Percentile95 r) (Percentile99 r) (RowsAffected r) (FirstExecutedAt r) (LastExecutedAt r).
Definition set_StdDevDuration (r : QueryResult) (v : Z) : QueryResult :=
  mkQueryResult (Name r) (Executions r) (SuccessfulExecutions r) (Errors r) (ErrorDetails r) (TotalDuration r) (AvgDuration r) (MinDuration r) (MaxDuration r) (MedianDuration r) v (Percentile95 r) (Percentile99 r) (RowsAffected r) (FirstExecutedAt r) (LastExecutedAt r).
Definition set_Percentile95 (r : QueryResult) (v : Z) : QueryResult :=
  mkQueryResult (Name r) (Executions r) (SuccessfulExecutions r) (Errors r) (ErrorDetails r) (TotalDuration r) (AvgDuration r) (MinDuration r) (MaxDuration r) (MedianDuration r) (StdDevDuration r) v (Percentile99 r) (RowsAffected r) (FirstExecutedAt r) (LastExecutedAt r).
Definition set_Percentile99 (r : QueryResult) (v : Z) : QueryResult :=
  mkQueryResult (Name r) (Executions r) (SuccessfulExecutions r) (Errors r) (ErrorDetails r) (TotalDuration r) (AvgDuration r) (MinDuration r) (MaxDuration r) (MedianDuration r) (StdDevDuration r) (Percentile95 r) v (RowsAffected r) (FirstExecutedAt r) (LastExecutedAt r).
Definition set_RowsAffected (r : QueryResult) (v : Z) : QueryResult :=
  mkQueryResult (Name r) (Executions r) (SuccessfulExecutions r) (Errors r) (ErrorDetails r) (TotalDuration r) (AvgDuration r) (MinDuration r) (MaxDuration r) (MedianDuration r) (StdDevDuration r) (Percentile95 r) (Percentile99 r) v (FirstExecutedAt r) (LastExecutedAt r).
Definition set_FirstExecutedAt (r : QueryResult) (v : Z) : QueryResult :=
  mkQueryResult (Name r) (Executions r) (SuccessfulExecutions r) (Errors r) (ErrorDetails r) (TotalDuration r) (AvgDuration r) (MinDuration r) (MaxDuration r) (MedianDuration r) (StdDevDuration r) (Percentile95 r) (Percentile99 r) (RowsAffected r) v (LastExecutedAt r).
Definition set_LastExecutedAt (r : QueryResult) (v : Z) : QueryResult :=
  mkQueryResult (Name r) (Executions r) (SuccessfulExecutions r) (Errors r) (ErrorDetails r) (TotalDuration r) (AvgDuration r) (MinDuration r) (MaxDuration r) (MedianDuration r) (StdDevDuration r) (Percentile95 r) (Percentile99 r) (RowsAffected r) (FirstExecutedAt r) v.

(** The initial [QueryResult] of a query ([MinDuration: time.Hour] and
    zeroed counters), as built by both [Analyzer.Run] and
    [QueryExecutor.ExecuteBatch]. *)
Definition init_result (name : string) : QueryResult :=
  mkQueryResult name [] 0 0 [] 0 0 Hour 0 0 0 0 0 0 0 0.


(* ------------------------------------------------------------------ *)
(** ** Execution unit ([Analyzer.executeQuery], [QueryExecutor.ExecuteQuery]) *)

(** What the database does with one [QueryContext] call, as seen from the
    caller: the call returns after [issue_latency] nanoseconds, either with
    an error or with a cursor; draining the cursor takes one latency per
    row ([rows.Next] returning true), then [end_latency] for the final
    [rows.Next] returning false, after which [rows.Err] reports [iter_err]. *)
Inductive IssueOutcome :=
  | IssueFailed (msg : string)
  | RowsReturned (row_latencies : list Z) (end_latency : Z)
                 (iter_err : option string).

Record DbResponse := mkDbResponse {
  issue_latency : Z;
  issue_outcome : IssueOutcome }.

(** [queryResult] of analyzer.go. *)
Record queryResult := mkqueryResult {
  q_duration : Z;
  q_rowCount : Z;
  q_err : option string;
  q_startTime : Z }.

(** [for rows.Next() { rowCount++ }], threading the clock. *)
Definition drain_rows (row_latencies : list Z) (rowCount clock : Z) : Z * Z :=
  fold_left (fun '(n, c) lat => (n + 1, c + lat)) row_latencies (rowCount, clock).

(** [Analyzer.executeQuery]: the clock is passed in and returned, the
    final clock being the instant the function returns. *)
Definition executeQuery (resp : DbResponse) (clock : Z) : queryResult * Z :=
  let startTime := clock in                         (* time.Now() *)
  let clock := clock + issue_latency resp in        (* a.db.QueryContext *)
  let duration := clock - startTime in              (* time.Since(startTime) *)
  match issue_outcome resp with
  | IssueFailed msg => (mkqueryResult duration 0 (Some msg) startTime, clock)
  | RowsReturned rows last err =>
      let '(rowCount, clock) := drain_rows rows 0 clock in
      let clock := clock + last in
      (mkqueryResult duration rowCount err startTime, clock)
  end.

(** [QueryExecutor.ExecuteQuery]: [StartTime] and [start] are two
    consecutive readings of the clock, taken at the same instant here. *)
Definition ExecuteQuery (resp : DbResponse) (clock : Z) : QueryExecution * Z :=
  let startTime := clock in                         (* StartTime: time.Now() *)
  let start := clock in                             (* start := time.Now() *)
  let clock := clock + issue_latency resp in        (* qe.db.QueryContext *)
  let duration := clock - start in                  (* time.Since(start) *)
  match issue_outcome resp with
  | IssueFailed msg =>
      (mkQueryExecution startTime duration 0 (Some msg) msg, clock)
  | RowsReturned rows last err =>
      let '(rowCount, clock) := drain_rows rows 0 clock in
      let clock := clock + last in
      let msg := match err with Some m => m | None => EmptyString end in
      (mkQueryExecution startTime duration rowCount err msg, clock)
  end.

(** Instant at which the result rows have been fully drained. *)
Definition drain_complete (resp : DbResponse) (clock : Z) : Z :=
  match issue_outcome resp with
  | IssueFailed _ => clock + issue_latency resp
  | RowsReturned rows last _ =>
      clock + issue_latency resp + fold_right Z.add 0 rows + last
  end.

(* ------------------------------------------------------------------ *)
(** ** Batch runner: [Analyzer.Run] (internal/analyzer/analyzer.go) *)

(** The body of one iteration's goroutine once it holds [resultMutex]
    (lines 114-153): the state is the query's [result] and the shared
    [durations] slice. *)
Definition run_merge (st : QueryResult * list Z) (q : queryResult)
  : QueryResult * list Z :=
  let '(r, durations) := st in
  let r := if Nat.eqb (length (Executions r)) 0
           then set_FirstExecutedAt r (q_startTime q) else r in
  let r := set_LastExecutedAt r (q_startTime q) in
  let execution := mkQueryExecution (q_startTime q) (q_duration q)
                                    (q_rowCount q) None EmptyString in
  match q_err q with
  | Some e =>
      let execution := mkQueryExecution (q_startTime q) (q_duration q)
                                        (q_rowCount q) None e in
      let r := set_Errors r (Errors r + 1) in
      let r := if Nat.ltb (length (ErrorDetails r)) 10
               then set_ErrorDetails r (ErrorDetails r ++ [e]) else r in
      (set_Executions r (Executions r ++ [execution]), durations)
  | None =>
      let r := set_SuccessfulExecutions r (SuccessfulExecutions r + 1) in
      let r := set_TotalDuration r (dur_add (TotalDuration r) (q_duration q)) in
      let r := set_RowsAffected r (wrap64 (RowsAffected r + q_rowCount q)) in
      let durations := durations ++ [q_duration q] in
      let r := set_Executions r (Executions r ++ [execution]) in
      let r := if q_duration q <? MinDuration r
               then set_MinDuration r (q_duration q) else r in
      let r := if q_duration q >? MaxDuration r
               then set_MaxDuration r (q_duration q) else r in
      (r, durations)
  end.

(** After [wg.Wait()] (lines 164-177). *)
Definition run_finalize (st : QueryResult * list Z) : QueryResult :=
  let '(r, durations) := st in
  let r := if SuccessfulExecutions r >? 0
           then set_AvgDuration r (dur_div (TotalDuration r) (SuccessfulExecutions r))
           else r in
  match durations with
  | [] => r
  | _ =>
      let sorted := sort_durations durations in
      let n := Z.of_nat (length sorted) in
      let idx95 := clamp_index (n * 95 / 100) n in
      set_Percentile95 r (nth (Z.to_nat idx95) sorted 0)
  end.

(** One query of [Analyzer.Run]: [completions] are the iterations'
    [queryResult]s in the order their goroutines acquired [resultMutex]
    (any order the scheduler produces). *)
Definition run_query (name : string) (completions : list queryResult) : QueryResult :=
  run_finalize (fold_left run_merge completions (init_result name, [])).

(** [Analyzer.Run]: the queries are processed one after the other. *)
Definition Run (queries : list (string * list queryResult)) : list QueryResult :=
  map (fun '(name, completions) => run_query name completions) queries.

(* ------------------------------------------------------------------ *)
(** ** Batch runner: [QueryExecutor.ExecuteBatch] (internal/analyzer/query.go) *)

(** One loop iteration after [ExecuteQuery] returned (lines 107-135). *)
Definition batch_merge (r : QueryResult) (execution : QueryExecution) : QueryResult :=
  let r := if Nat.eqb (length (Executions r)) 0
           then set_FirstExecutedAt r (ex_StartTime execution) else r in
  let r := set_LastExecutedAt r (ex_StartTime execution) in
  let r := set_Executions r (Executions r ++ [execution]) in
  match ex_Error execution with
  | Some _ =>
      let r := set_Errors r (Errors r + 1) in
      if Nat.ltb (length (ErrorDetails r)) 10
      then set_ErrorDetails r (ErrorDetails r ++ [ex_ErrorMessage execution])
      else r
  | None =>
      let r := set_SuccessfulExecutions r (SuccessfulExecutions r + 1) in
      let r := set_TotalDuration r (dur_add (TotalDuration r) (ex_Duration execution)) in
      let r := set_RowsAffected r (wrap64 (RowsAffected r + ex_RowCount execution)) in
      let r := if ex_Duration execution <? MinDuration r
               then set_MinDuration r (ex_Duration execution) else r in
      if ex_Duration execution >? MaxDuration r
      then set_MaxDuration r (ex_Duration execution) else r
  end.

Definition is_success (e : QueryExecution) : bool :=
  match ex_Error e with None => true | Some _ => false end.

(** After the iteration loop (lines 148-165). *)
Definition batch_finalize (r : QueryResult) : QueryResult :=
  if SuccessfulExecutions r >? 0 then
    let r := set_AvgDuration r (dur_div (TotalDuration r) (SuccessfulExecutions r)) in
    let durations := map ex_Duration (filter is_success (Executions r)) in
    match durations with
    | [] => r
    | _ =>
        let stats := CalculateStats durations in
        let r := set_Percentile95 r (st_P95 stats) in
        let r := set_Percentile99 r (st_P99 stats) in
        let r := set_StdDevDuration r (st_StdDev stats) in
        set_MedianDuration r (st_Median stats)
    end
  else r.

(** One query's goroutine of [ExecuteBatch]: its executions in loop order. *)
Definition batch_query (name : string) (executions : list QueryExecution) : QueryResult :=
  batch_finalize (fold_left batch_merge executions (init_result name)).

Definition ExecuteBatch (queries : list (string * list QueryExecution)) : list QueryResult :=
  map (fun '(name, executions) => batch_query name executions) queries.

(* ------------------------------------------------------------------ *)
(** ** Run summarizer ([calculateSummary], internal/analyzer/analyzer.go) *)

(** [d.Microseconds()]: [int64(d) / 1e3], truncated toward zero. *)
Definition Microseconds (d : Z) : Z := Z.quot d 1000.

(** [float64(d.Microseconds()) / 1000]. *)
Definition to_ms (d : Z) : Q := inject_Z (Microseconds d) / inject_Z 1000.

(** [ResultSummary], without the complexity histogram (the complexity tag
    is not modelled) and the fields [calculateSummary] leaves at zero. *)
Record ResultSummary := mkResultSummary {
  sm_TotalQueries : Z;
  sm_SuccessfulQueries : Z;
  sm_FailedQueries : Z;
  sm_TotalExecutions : Z;
  sm_SuccessfulExecutions : Z;
  sm_FailedExecutions : Z;
  sm_AvgDurationMs : Q;
  sm_MaxDurationMs : Q;
  sm_TotalRowsReturned : Z }.

(** The loop of [calculateSummary]: the summary counters and the two
    accumulators [totalDuration] and [maxDuration]. *)
Definition summary_step (acc : ResultSummary * Z * Z) (r : QueryResult)
  : ResultSummary * Z * Z :=
  let '(s, totalDuration, maxDuration) := acc in
  let s := mkResultSummary (sm_TotalQueries s)
             (if Errors r =? 0 then sm_SuccessfulQueries s + 1 else sm_SuccessfulQueries s)
             (if Errors r =? 0 then sm_FailedQueries s else sm_FailedQueries s + 1)
             (sm_TotalExecutions s + Z.of_nat (length (Executions r)))
             (sm_SuccessfulExecutions s + SuccessfulExecutions r)
             (sm_FailedExecutions s + Errors r)
             (sm_AvgDurationMs s) (sm_MaxDurationMs s)
             (wrap64 (sm_TotalRowsReturned s + RowsAffected r)) in
  let totalDuration := dur_add totalDuration (AvgDuration r) in
  let maxDuration := if MaxDuration r >? maxDuration then MaxDuration r else maxDuration in
  (s, totalDuration, maxDuration).

Definition calculateSummary (results : list QueryResult) : ResultSummary :=
  let s0 := mkResultSummary (Z.of_nat (length results)) 0 0 0 0 0 0 0 0 in
  let '(s, totalDuration, maxDuration) := fold_left summary_step results (s0, 0, 0) in
  if sm_TotalQueries s >? 0 then
    let avgDuration := dur_div totalDuration (sm_TotalQueries s) in
    mkResultSummary (sm_TotalQueries s) (sm_SuccessfulQueries s) (sm_FailedQueries s)
      (sm_TotalExecutions s) (sm_SuccessfulExecutions s) (sm_FailedExecutions s)
      (to_ms avgDuration) (to_ms maxDuration) (sm_TotalRowsReturned s)
  else s.

(** The reduction the Run Summarizer is specified to perform: the mean,
    in milliseconds, of the per-query averages of the queries whose
    average is defined (at least one successful execution), computed in
    the same units as the code ([float64(avg.Microseconds()) / 1000]). *)
Definition spec_overall_avg_ms (results : list QueryResult) : Q :=
  let defined := filter (fun r => SuccessfulExecutions r >? 0) results in
  match defined with
  | [] => 0
  | _ =>
      let total := fold_left (fun t r => t + AvgDuration r) defined 0 in
      to_ms (Z.quot total (Z.of_nat (length defined)))
  end.

(* ------------------------------------------------------------------ *)
(** ** Comparator ([SaveComparisonJSON], internal/report/json.go) *)

(** The aggregate improvement (lines 157-182): one loop over each run. *)
Definition sum_successful (results : list QueryResult) : Z * Z :=
  fold_left (fun '(total, count) q =>
               if SuccessfulExecutions q >? 0
               then (dur_add total (AvgDuration q), count + 1)
               else (total, count)) results (0, 0).

Definition avg_time_improvement (before after : list QueryResult) : Q :=
  let '(beforeTotal, beforeCount) := sum_successful before in
  let '(afterTotal, afterCount) := sum_successful after in
  if (beforeCount >? 0) && (afterCount >? 0) then
    let beforeAvg := (inject_Z (Microseconds beforeTotal) / inject_Z beforeCount / inject_Z 1000)%Q in
    let afterAvg := (inject_Z (Microseconds afterTotal) / inject_Z afterCount / inject_Z 1000)%Q in
    if Qlt_le_dec 0 beforeAvg then ((beforeAvg - afterAvg) / beforeAvg * inject_Z 100)%Q
    else 0%Q
  else 0.

(** The aggregate the Comparator is specified to compute: the same
    formula, restricted on both sides to the queries (by name) that have at
    least one successful execution in both runs. *)
Definition successful_in (name : string) (results : list QueryResult) : bool :=
  existsb (fun q => String.eqb (Name q) name && (SuccessfulExecutions q >? 0)) results.

Definition spec_avg_time_improvement (before after : list QueryResult) : Q :=
  let both q := successful_in (Name q) before && successful_in (Name q) after in
  avg_time_improvement (filter both before) (filter both after).

(* ------------------------------------------------------------------ *)
(** ** Admission gate: interleaving semantics of the two runners

    The semaphore is a buffered channel [make(chan struct{}, C)]: a send
    blocks while [C] tokens are buffered, a receive frees one.  Goroutines
    are modelled by their program point; a step of the relation is one
    atomic action of one goroutine (or of the dispatching loop). *)

Module RunGate.

Local Open Scope nat_scope.

(** Program point of an iteration goroutine of [Analyzer.Run]. *)
Inductive phase :=
  | Holding                 (* token sent by the loop, goroutine not yet in executeQuery *)
  | Executing               (* inside a.executeQuery *)
  | Merging (ok : bool).    (* merging under resultMutex; ok = (err == nil) *)

(** [todo]: iterations still to dispatch, for the current query then the
    later ones; [sem]: tokens buffered in [semaphore]; [workers]: the live
    goroutines of the current query. *)
Record state := mkState { todo : list nat; sem : nat; workers : list phase }.

Definition initial (iterations : list nat) : state := mkState iterations 0 [].

Definition is_executing (p : phase) : bool :=
  match p with Executing => true | _ => false end.

Definition in_flight (s : state) : nat := length (filter is_executing (workers s)).

Section Steps.
Variable C : nat.   (* a.concurrency, the channel's capacity *)

Inductive step : state -> state -> Prop :=
  (** [wg.Add(1); semaphore <- struct{}{}; go func...] *)
  | step_dispatch k rest n ws :
      n < C ->
      step (mkState (S k :: rest) n ws) (mkState (k :: rest) (S n) (Holding :: ws))
  (** the goroutine enters [a.executeQuery] *)
  | step_begin rest n l1 l2 :
      step (mkState rest n (l1 ++ Holding :: l2)) (mkState rest n (l1 ++ Executing :: l2))
  (** [a.executeQuery] returns, successfully or not *)
  | step_complete ok rest n l1 l2 :
      step (mkState rest n (l1 ++ Executing :: l2)) (mkState rest n (l1 ++ Merging ok :: l2))
  (** return: [defer func() { <-semaphore }()] then [defer wg.Done()] *)
  | step_release ok rest n l1 l2 :
      step (mkState rest (S n) (l1 ++ Merging ok :: l2)) (mkState rest n (l1 ++ l2))
  (** [wg.Wait()] returns; the loop moves to the next query *)
  | step_next rest n :
      step (mkState (0 :: rest) n []) (mkState rest n []).

Inductive reachable (iterations : list nat) : state -> Prop :=
  | reach_init : reachable iterations (initial iterations)
  | reach_step s s' : reachable iterations s -> step s s' -> reachable iterations s'.
End Steps.

End RunGate.

Module BatchGate.

Local Open Scope nat_scope.

(** Program point of the per-query goroutine of [ExecuteBatch], with the
    number of iterations left after the current one. *)
Inductive phase :=
  | Ready (k : nat)              (* top of the loop, k iterations left *)
  | Holding (k : nat)            (* qe.semaphore <- struct{}{} done *)
  | Executing (k : nat)          (* inside qe.ExecuteQuery *)
  | Returned (k : nat) (ok : bool) (* ExecuteQuery returned, token still held *)
  | Merging (k : nat).           (* <-qe.semaphore done, merging *)

Record state := mkState { sem : nat; workers : list phase }.

Definition initial (iterations : nat) (nqueries : nat) : state :=
  mkState 0 (repeat (Ready iterations) nqueries).

Definition is_executing (p : phase) : bool :=
  match p with Executing _ => true | _ => false end.

Definition holds_token (p : phase) : bool :=
  match p with Holding _ | Executing _ | Returned _ _ => true | _ => false end.

Definition in_flight (s : state) : nat := length (filter is_executing (workers s)).

Section Steps.
Variable C : nat.

Inductive step : state -> state -> Prop :=
  | step_acquire k n l1 l2 :
      n < C ->
      step (mkState n (l1 ++ Ready (S k) :: l2)) (mkState (S n) (l1 ++ Holding k :: l2))
  | step_begin k n l1 l2 :
      step (mkState n (l1 ++ Holding k :: l2)) (mkState n (l1 ++ Executing k :: l2))
  | step_complete k ok n l1 l2 :
      step (mkState n (l1 ++ Executing k :: l2)) (mkState n (l1 ++ Returned k ok :: l2))
  | step_release k ok n l1 l2 :
      step (mkState (S n) (l1 ++ Returned k ok :: l2)) (mkState n (l1 ++ Merging k :: l2))
  | step_merge k n l1 l2 :
      step (mkState n (l1 ++ Merging k :: l2)) (mkState n (l1 ++ Ready k :: l2)).

Inductive reachable (iterations nqueries : nat) : state -> Prop :=
  | reach_init : reachable iterations nqueries (initial iterations nqueries)
  | reach_step s s' :
      reachable iterations nqueries s -> step s s' -> reachable iterations nqueries s'.
End Steps.

End BatchGate.

(* ------------------------------------------------------------------ *)
(** ** Views on the completed executions of one query *)


(** Error messages of the failed completions, in merge order. *)
Definition err_msgs (qs : list queryResult) : list string :=
  flat_map (fun q => match q_err q with Some e => [e] | None => [] end) qs.

(** Durations of the successful completions, in merge order. *)
Definition succ_durs (qs : list queryResult) : list Z :=
  flat_map (fun q => match q_err q with None => [q_duration q] | Some _ => [] end) qs.

Definition batch_err_msgs (es : list QueryExecution) : list string :=
  map ex_ErrorMessage (filter (fun e => negb (is_success e)) es).

Definition batch_succ_durs (es : list QueryExecution) : list Z :=
  map ex_Duration (filter is_success es).

(** Queries that have at least one successful execution. *)
Definition has_success (q : QueryResult) : bool := SuccessfulExecutions q >? 0.

(** Time spent draining the result rows after [QueryContext] returned. *)
Definition drain_time (resp : DbResponse) : Z :=
  match issue_outcome resp with
  | IssueFailed _ => 0
  | RowsReturned rows last _ => fold_right Z.add 0 rows + last
  end.

(* ------------------------------------------------------------------ *)
(** ** Go strings (package [strings]) on byte strings *)

(** [strings.ToLower] on an ASCII string: Go's byte-wise fast path,
    taken when every byte is below 0x80, maps ['A'..'Z'] to ['a'..'z']
    and keeps every other byte.  Beyond ASCII the Go function decodes
    UTF-8 and applies the Unicode case mapping ([strings.Map]), which is
    not modelled: this definition agrees with Go's on ASCII strings only,
    and the theorems whose statement depends on the lowering assume ASCII
    input ([is_ascii]). *)
Definition lower_byte (c : Ascii.ascii) : Ascii.ascii :=
  let n := Ascii.nat_of_ascii c in
  if (65 <=? n)%nat && (n <=? 90)%nat then Ascii.ascii_of_nat (n + 32) else c.

Fixpoint ToLower (s : string) : string :=
  match s with
  | EmptyString => EmptyString
  | String c s' => String (lower_byte c) (ToLower s')
  end.

Fixpoint is_ascii (s : string) : bool :=
  match s with
  | EmptyString => true
  | String c s' => (Ascii.nat_of_ascii c <? 128)%nat && is_ascii s'
  end.

(** [strings.HasPrefix(s, prefix)] *)
Definition HasPrefix (s pre : string) : bool := String.prefix pre s.

(** [strings.Contains(s, substr)]: [substr] occurs at some offset. *)
Fixpoint Contains (s substr : string) : bool :=
  String.prefix substr s ||
  match s with
  | EmptyString => false
  | String _ s' => Contains s' substr
  end.

(** [strings.ReplaceAll(s, old, new)] for a one-byte [old]. *)
Fixpoint ReplaceAll (s : string) (old : Ascii.ascii) (new : string) : string :=
  match s with
  | EmptyString => EmptyString
  | String c s' =>
      if Ascii.eqb c old then String.append new (ReplaceAll s' old new)
      else String c (ReplaceAll s' old new)
  end.

(* ------------------------------------------------------------------ *)
(** ** Go maps with string keys *)

(** A [map[string]V] as an association list with distinct keys:
    [m[k] = v] and the comma-ok lookup [v, ok := m[k]]. *)
Fixpoint map_set {V} (m : list (string * V)) (k : string) (v : V) : list (string * V) :=
  match m with
  | [] => [(k, v)]
  | (k', v') :: m' => if String.eqb k k' then (k, v) :: m' else (k', v') :: map_set m' k v
  end.

Definition map_lookup {V} (m : list (string * V)) (k : string) : option V :=
  match find (fun kv => String.eqb k (fst kv)) m with
  | Some (_, v) => Some v
  | None => None
  end.

(** [m[k]] on a [map[string]int]: the zero value for a missing key. *)
Definition map_get_int (m : list (string * Z)) (k : string) : Z :=
  match map_lookup m k with Some v => v | None => 0 end.

(* ------------------------------------------------------------------ *)
(** ** Error classification ([ClassifyErrors], internal/analyzer/query.go) *)

Definition classifyErrorMessage (errMsg : string) : string :=
  let errMsg := ToLower errMsg in
  if Contains errMsg "deadlock" then "Deadlock"
  else if Contains errMsg "lock wait timeout" then "Lock timeout"
  else if Contains errMsg "foreign key constraint" then "Foreign key constraint"
  else if Contains errMsg "duplicate entry" then "Duplicate entry"
  else if Contains errMsg "truncated" || Contains errMsg "out of range"
       then "Data truncation/range"
  else if Contains errMsg "convert" || Contains errMsg "illegal mix"
       then "Type conversion"
  else if Contains errMsg "context deadline" || Contains errMsg "timeout"
       then "Query timeout"
  else "Other error".

(** [errorTypes[errType]++] for every entry of every [ErrorDetails]. *)
Definition ClassifyErrors (results : list QueryResult) : list (string * Z) :=
  fold_left (fun errorTypes result =>
               fold_left (fun errorTypes errMsg =>
                            let errType := classifyErrorMessage errMsg in
                            map_set errorTypes errType (map_get_int errorTypes errType + 1))
                         (ErrorDetails result) errorTypes)
            results [].

(* ------------------------------------------------------------------ *)
(** ** Per-query comparisons ([SaveComparisonJSON], internal/report/json.go) *)

Record QueryComparison := mkQueryComparison {
  cmp_Name : string;
  cmp_BeforeAvgMs : Q;
  cmp_AfterAvgMs : Q;
  cmp_ImprovementPercent : Q;
  cmp_BeforeErrors : Z;
  cmp_AfterErrors : Z;
  cmp_BeforeRows : Z;
  cmp_AfterRows : Z }.

(** [afterMap[q.Name] = q] for every query of the after run (lines 118-121). *)
Definition after_map (after : list QueryResult) : list (string * QueryResult) :=
  fold_left (fun m q => map_set m (Name q) q) after [].

(** The body of the loop over the before run (lines 131-148). *)
Definition compare_query (beforeQ afterQ : QueryResult) : QueryComparison :=
  let beforeAvgMs := to_ms (AvgDuration beforeQ) in
  let afterAvgMs := to_ms (AvgDuration afterQ) in
  let improvementPct :=
    if Qlt_le_dec 0 beforeAvgMs
    then ((beforeAvgMs - afterAvgMs) / beforeAvgMs * inject_Z 100)%Q
    else 0%Q in
  mkQueryComparison (Name beforeQ) beforeAvgMs afterAvgMs improvementPct
    (Errors beforeQ) (Errors afterQ) (RowsAffected beforeQ) (RowsAffected afterQ).

(** [comparisons] before the sort (lines 123-151). *)
Definition query_comparisons (before after : list QueryResult) : list QueryComparison :=
  let afterMap := after_map after in
  flat_map (fun beforeQ =>
              match map_lookup afterMap (Name beforeQ) with
              | Some afterQ => [compare_query beforeQ afterQ]
              | None => []
              end) before.

(** [sort.Slice(comparisons, ImprovementPercent >)] is not stable: the
    written slice is some permutation ordered by decreasing improvement. *)
Definition comparisons_sorted (before after : list QueryResult) (cs : list QueryComparison) : Prop :=
  Permutation (query_comparisons before after) cs /\
  Sorted (fun c1 c2 => (cmp_ImprovementPercent c2 <= cmp_ImprovementPercent c1)%Q) cs.

(* ------------------------------------------------------------------ *)
(** ** Top queries of the summary report ([SaveSummaryJSON]) *)

Record querySummary := mkquerySummary {
  qs_Name : string;
  qs_AvgDuration : Q;
  qs_Executions : Z;
  qs_Errors : Z;
  qs_Rows : Z }.

(** [summary.TopQueries] (lines 62-98), given the sorted copy
    [sortedResults]; [None] is the nil slice (JSON [null]) left when the
    run has no results. *)
Definition summary_top_queries (results sortedResults : list QueryResult)
  : option (list querySummary) :=
  match results with
  | [] => None
  | _ =>
      Some (map (fun q => mkquerySummary (Name q) (to_ms (AvgDuration q))
                            (SuccessfulExecutions q) (Errors q) (RowsAffected q))
                (firstn 5 sortedResults))
  end.

(** [sort.Slice(sortedResults, AvgDuration >)] on a copy: some
    permutation ordered by decreasing average. *)
Definition sorted_by_avg_desc (results s : list QueryResult) : Prop :=
  Permutation results s /\ Sorted (fun a b => AvgDuration b <= AvgDuration a) s.

(* ------------------------------------------------------------------ *)
(** ** Test query selection ([CreateTestQueries], internal/analyzer/query.go) *)

(** [model.Query] *)
Record Query := mkQuery {
  qry_Name : string;
  qry_Description : string;
  qry_SQL : string;
  qry_Weight : Z }.

(** A Go [(T, error)] pair where exactly one side is set. *)
Inductive GoResult (A : Type) :=
  | Ok (a : A)
  | Err (msg : string).
Arguments Ok {A} a.
Arguments Err {A} msg.

Definition filterQueriesByType (allQueries : list Query) (queryType : string) (limit : Z)
  : GoResult (list Query) :=
  let filtered := filter (fun q => HasPrefix (ToLower (qry_Name q)) (ToLower queryType))
                         allQueries in
  match filtered with
  | [] => Err (String.append "no queries found of type: " queryType)
  | _ =>
      if (0 <? limit) && (limit <? Z.of_nat (length filtered))
      then Ok (firstn (Z.to_nat limit) filtered)
      else Ok filtered
  end.

(** [sortedQueries] is the copy of [allQueries] after
    [sort.Slice(sortedQueries, Weight >)], which is not stable: any
    permutation ordered by decreasing weight ([sorted_by_weight_desc]). *)
Definition CreateTestQueries (sortedQueries allQueries : list Query) (testType : string)
  (limit : Z) : GoResult (list Query) :=
  if String.eqb testType "all" then Ok allQueries
  else if String.eqb testType "consistency" then filterQueriesByType allQueries "consistency" limit
  else if String.eqb testType "datatype" then filterQueriesByType allQueries "datatype" limit
  else if String.eqb testType "relationship" then filterQueriesByType allQueries "relationship" limit
  else if String.eqb testType "top" then
    if (0 <? limit) && (limit <? Z.of_nat (length sortedQueries))
    then Ok (firstn (Z.to_nat limit) sortedQueries)
    else Ok sortedQueries
  else Err (String.append "unknown test type: " testType).

Definition sorted_by_weight_desc (allQueries s : list Query) : Prop :=
  Permutation allQueries s /\ Sorted (fun a b => qry_Weight b <= qry_Weight a) s.

(* ------------------------------------------------------------------ *)
(** ** Configuration ([LoadConfig], internal/config/config.go) *)

Definition Second : Z := 1000000000.

Record Config := mkConfig {
  DSN : string;
  QueriesFile : string;
  OutputDir : string;
  Iterations : Z;
  Concurrency : Z;
  WarmupIterations : Z;
  Label : string;
  Timeout : Z;
  Verbose : bool }.

Definition default_config : Config :=
  mkConfig "root:password@tcp(localhost:3306)/database" "" "./performance-results"
           50 5 100 "baseline" (30 * Second) false.

(** The decoded keys of a well-formed config file: [None] for a key that
    is absent (or [null]), which [json.Unmarshal] leaves untouched.  The
    number under ["timeoutSeconds"] is decoded into the [time.Duration]
    field as is, i.e. as a count of nanoseconds. *)
Record ConfigJSON := mkConfigJSON {
  j_dsn : option string;
  j_queriesFile : option string;
  j_outputDir : option string;
  j_iterations : option Z;
  j_concurrency : option Z;
  j_warmupIterations : option Z;
  j_label : option string;
  j_timeoutSeconds : option Z;
  j_verbose : option bool }.

(** What the file system holds at [path]. *)
Inductive ConfigFile :=
  | FileMissingNoDir  (* os.IsNotExist, and os.MkdirAll of the directory fails *)
  | FileMissing (writable : bool)
      (* os.IsNotExist, the directory exists or is created; can the default be written *)
  | FileUnreadable
  | FileUnparsable
  | FileParsed (j : ConfigJSON).

Definition or_keep {A} (o : option A) (v : A) : A :=
  match o with Some x => x | None => v end.

(** [json.Unmarshal(data, config)] *)
Definition unmarshal_config (j : ConfigJSON) (c : Config) : Config :=
  mkConfig (or_keep (j_dsn j) (DSN c)) (or_keep (j_queriesFile j) (QueriesFile c))
           (or_keep (j_outputDir j) (OutputDir c)) (or_keep (j_iterations j) (Iterations c))
           (or_keep (j_concurrency j) (Concurrency c))
           (or_keep (j_warmupIterations j) (WarmupIterations c))
           (or_keep (j_label j) (Label c)) (or_keep (j_timeoutSeconds j) (Timeout c))
           (or_keep (j_verbose j) (Verbose c)).

(** [LoadConfig path].  [json.MarshalIndent] of the default [Config]
    cannot fail, so its error branch is not represented. *)
Definition LoadConfig (file : ConfigFile) : GoResult Config :=
  match file with
  | FileMissingNoDir => Err "couldn't create config directory"
  | FileMissing true => Ok default_config
  | FileMissing false => Err "error writing default config"
  | FileUnreadable => Err "error reading config file"
  | FileUnparsable => Err "error parsing config file"
  | FileParsed j =>
      let c := unmarshal_config j default_config in
      let timeout := if Timeout c =? 0 then 30 * Second else Timeout c in
      let iterations := if Iterations c <=? 0 then 50 else Iterations c in
      let concurrency := if Concurrency c <=? 0 then 5 else Concurrency c in
      let warmup := if WarmupIterations c <? 0 then 100 else WarmupIterations c in
      Ok (mkConfig (DSN c) (QueriesFile c) (OutputDir c) iterations concurrency warmup
                   (Label c) timeout (Verbose c))
  end.

(* ------------------------------------------------------------------ *)
(** ** CSV fields ([SaveCSV], [SaveDetailedCSV], internal/report/csv.go) *)

Definition quote_char : Ascii.ascii := Ascii.ascii_of_nat 34.
Definition comma_char : Ascii.ascii := Ascii.ascii_of_nat 44.
Definition space_char : Ascii.ascii := Ascii.ascii_of_nat 32.

(** The two [strings.ReplaceAll] calls on [q.Description]: every double
    quote is doubled, then every comma becomes a space. *)
Definition csv_description (description : string) : string :=
  let desc := ReplaceAll description quote_char (String quote_char (String quote_char EmptyString)) in
  ReplaceAll desc comma_char (String space_char EmptyString).

(* ------------------------------------------------------------------ *)
(** ** Tables of a query ([AnalyzeTablesInQuery], internal/analyzer/complexity.go) *)

(** RE2's [\s]: tab, newline, form feed, carriage return, space. *)
Definition is_space (c : Ascii.ascii) : bool :=
  let n := Ascii.nat_of_ascii c in
  (n =? 9)%nat || (n =? 10)%nat || (n =? 12)%nat || (n =? 13)%nat || (n =? 32)%nat.

(** [[a-z0-9_]] *)
Definition is_name_char (c : Ascii.ascii) : bool :=
  let n := Ascii.nat_of_ascii c in
  ((97 <=? n)%nat && (n <=? 122)%nat) || ((48 <=? n)%nat && (n <=? 57)%nat) || (n =? 95)%nat.

(** The longest prefix of [s] made of bytes satisfying [p], and the rest. *)
Fixpoint span (p : Ascii.ascii -> bool) (s : string) : string * string :=
  match s with
  | EmptyString => (EmptyString, EmptyString)
  | String c s' =>
      if p c then let '(a, b) := span p s' in (String c a, b) else (EmptyString, s)
  end.

Fixpoint drop_prefix (n : nat) (s : string) : string :=
  match n, s with
  | O, _ => s
  | S n', String _ s' => drop_prefix n' s'
  | S _, EmptyString => EmptyString
  end.

(** A match of [kw\s+([a-z0-9_]+)] starting at the first byte of [s]:
    the captured name and the input after the match.  Both quantifiers
    are greedy and their classes are disjoint, so the match, when there is
    one, takes all the blanks and then all the name bytes. *)
Definition match_kw (kw s : string) : option (string * string) :=
  if String.prefix kw s then
    let '(ws, rest) := span is_space (drop_prefix (String.length kw) s) in
    let '(name, rest) := span is_name_char rest in
    match ws, name with
    | String _ _, String _ _ => Some (name, rest)
    | _, _ => None
    end
  else None.

(** [tableRegex.FindAllStringSubmatch(sql, -1)] for
    [from\s+([a-z0-9_]+)|join\s+([a-z0-9_]+)], reduced to the non-empty
    group of each match: the leftmost match is searched at every offset in
    turn, and the search resumes after the end of a match.  The two
    alternatives begin with different keywords, so at most one matches at
    a given offset.  Every round consumes at least one byte, so the fuel
    [String.length s] suffices. *)
Fixpoint table_matches_fuel (fuel : nat) (s : string) : list string :=
  match fuel with
  | O => []
  | S fuel =>
      match s with
      | EmptyString => []
      | String _ s' =>
          match match_kw "from" s with
          | Some (name, rest) => name :: table_matches_fuel fuel rest
          | None =>
              match match_kw "join" s with
              | Some (name, rest) => name :: table_matches_fuel fuel rest
              | None => table_matches_fuel fuel s'
              end
          end
      end
  end.

Definition table_matches (s : string) : list string := table_matches_fuel (String.length s) s.

(** The loop over the matches, with the [seen] map as the list of names
    already appended. *)
Definition collect_tables (matches : list string) : list string * list string :=
  fold_left (fun '(tables, seen) tableName =>
               if String.eqb tableName EmptyString || existsb (String.eqb tableName) seen
               then (tables, seen)
               else (tables ++ [tableName], tableName :: seen))
            matches ([], []).

Definition AnalyzeTablesInQuery (sql : string) : list string :=
  let sql := ToLower sql in
  fst (collect_tables (table_matches sql)).

(* ================================================================== *)
(* ------------------------------------------------------------------ *)
(** ** Auxiliary definitions of the further properties *)

Definition succ_rows (qs : list queryResult) : list Z :=
  flat_map (fun q => match q_err q with None => [q_rowCount q] | Some _ => [] end) qs.

Definition batch_succ_rows (es : list QueryExecution) : list Z :=
  map ex_RowCount (filter is_success es).

Definition max_spec (ds : list Z) (m : Z) : Prop :=
  0 <= m /\ Forall (fun d => d <= m) ds /\ (m = 0 \/ In m ds).

Definition sumZ (l : list Z) : Z := fold_right Z.add 0 l.

(** The eight classes of [classifyErrorMessage]. *)
Definition error_classes : list string :=
  ["Deadlock"; "Lock timeout"; "Foreign key constraint"; "Duplicate entry";
   "Data truncation/range"; "Type conversion"; "Query timeout"; "Other error"]%string.

Definition map_total (m : list (string * Z)) : Z := fold_right (fun kv acc => snd kv + acc) 0 m.

Definition classify_step (errorTypes : list (string * Z)) (errMsg : string) : list (string * Z) :=
  let errType := classifyErrorMessage errMsg in
  map_set errorTypes errType (map_get_int errorTypes errType + 1).

(** The query of a run that [afterMap[name]] holds after the loop of
    lines 118-121: the last one with that name. *)
Definition last_named (name : string) (results : list QueryResult) : option QueryResult :=
  fold_left (fun acc q => if String.eqb (Name q) name then Some q else acc) results None.

(** How a CSV reader decodes the inside of a quoted field: a doubled
    double quote stands for one double quote. *)
Fixpoint csv_unescape (s : string) : string :=
  match s with
  | String c ((String c' s') as rest) =>
      if Ascii.eqb c quote_char && Ascii.eqb c' quote_char
      then String quote_char (csv_unescape s')
      else String c (csv_unescape rest)
  | _ => s
  end.

(** The bytes of a string. *)
Definition chars (s : string) : list ascii := list_ascii_of_string s.

(** A well-formed table name: non-empty, all bytes in [[a-z0-9_]]. *)
Definition table_name_ok (t : string) : Prop :=
  t <> EmptyString /\ forall x, In x (chars t) -> is_name_char x = true.

Definition newline_char : ascii := ascii_of_nat 10.

Definition str1 (c : ascii) : string := String c EmptyString.

(** The header lines of [SaveCSV] and [SaveDetailedCSV]. *)
Definition csv_header : string :=
  ("name,description,executions,errors,avg_ms,p95_ms,min_ms,max_ms,rows,complexity" ++ str1 newline_char)%string.

Definition detailed_csv_header : string :=
  ("name,description,sql,executions,errors,avg_ms,p95_ms,min_ms,max_ms,rows,complexity" ++ str1 newline_char)%string.

(** The row both functions write with [fmt.Sprintf]: the name and the
    escaped description, each between double quotes, then the eight other
    values as [Sprintf] renders them, all separated by commas and ended by
    a newline ([%d] of [len(q.Executions)],
    [q.Errors], [q.RowsAffected]; [%.2f] of the four millisecond values;
    [%s] of [q.QueryComplexity]). *)
Definition csv_row (name desc executions errors avg p95 min max rows complexity : string) : string :=
  (str1 quote_char ++ name ++ str1 quote_char ++ str1 comma_char ++
   str1 quote_char ++ desc ++ str1 quote_char ++ str1 comma_char ++
   executions ++ str1 comma_char ++ errors ++ str1 comma_char ++
   avg ++ str1 comma_char ++ p95 ++ str1 comma_char ++
   min ++ str1 comma_char ++ max ++ str1 comma_char ++
   rows ++ str1 comma_char ++ complexity ++ str1 newline_char)%string.

(** A row of [SaveCSV] and of [SaveDetailedCSV] (the same code): the
    description goes through [csv_description]; the escaped SQL text of
    [SaveDetailedCSV] is not an argument of the row. *)
Definition report_csv_row (name description executions errors avg p95 min max rows complexity : string)
  : string :=
  csv_row name (csv_description description) executions errors avg p95 min max rows complexity.

(** How a CSV reader splits a record: the separators are the commas
    outside double quotes, a double quote toggling the quoted state (a
    doubled quote toggles it twice). *)
Fixpoint csv_separators (inq : bool) (s : string) : nat :=
  match s with
  | EmptyString => 0
  | String c s' =>
      if Ascii.eqb c quote_char then csv_separators (negb inq) s'
      else if Ascii.eqb c comma_char && negb inq then S (csv_separators inq s')
      else csv_separators inq s'
  end.

Definition csv_field_count (record : string) : nat := S (csv_separators false record).

(** A rendered value with neither a double quote nor a comma. *)
Definition plain_field (f : string) : bool :=
  forallb (fun x => negb (Ascii.eqb x quote_char) && negb (Ascii.eqb x comma_char)) (chars f).

Definition no_quote (f : string) : bool :=
  forallb (fun x => negb (Ascii.eqb x quote_char)) (chars f).

(** [strings.Count(s, substr)] for a non-empty [substr]: the number of
    non-overlapping occurrences, found from the left ([strings.Index],
    then the search resumes after the occurrence).  Every round consumes
    at least one byte, so the fuel [String.length s] suffices. *)
Fixpoint count_fuel (fuel : nat) (s substr : string) : nat :=
  match fuel with
  | O => O
  | S fuel =>
      match s with
      | EmptyString => O
      | String _ s' =>
          if String.prefix substr s
          then S (count_fuel fuel (drop_prefix (String.length substr) s) substr)
          else count_fuel fuel s' substr
      end
  end.

(** For an empty [substr] Go returns the number of runes plus one
    (bytes, on ASCII text). *)
Definition Count (s substr : string) : nat :=
  if String.eqb substr EmptyString then S (String.length s)
  else count_fuel (String.length s) s substr.

Definition AnalyzeQueryComplexity (sql : string) : string :=
  let sql := ToLower sql in
  let joinCount := Count sql "join" in
  let hasAggregation := Contains sql "group by" || Contains sql "count(" ||
                        Contains sql "sum(" || Contains sql "avg(" ||
                        Contains sql "max(" || Contains sql "min(" in
  let hasSubquery := (1 <? Count sql "select")%nat in
  let hasOrdering := Contains sql "order by" in
  let hasWindowFunc := Contains sql "over (" || Contains sql "over(" ||
                       Contains sql "rank()" || Contains sql "row_number()" in
  let conditionComplexity := (Count sql " and " + Count sql " or ")%nat in
  let hasHaving := Contains sql "having " in
  let hasUnion := Contains sql "union " in
  let hasCTE := Contains sql "with " && (Contains sql " as (" || Contains sql " as(") in
  if ((2 <? joinCount)%nat && (hasAggregation || hasSubquery)) ||
     hasWindowFunc || hasUnion || (hasAggregation && hasHaving) || hasCTE ||
     (5 <? conditionComplexity)%nat
  then "high"
  else if ((0 <? joinCount)%nat && (hasAggregation || hasSubquery)) ||
          (2 <? conditionComplexity)%nat || (1 <? joinCount)%nat
  then "medium"
  else if (0 <? joinCount)%nat || hasAggregation || hasSubquery || hasOrdering
  then "low-medium"
  else "low".

(** The order of the four levels. *)
Definition complexity_rank (level : string) : nat :=
  if String.eqb level "high" then 3
  else if String.eqb level "medium" then 2
  else if String.eqb level "low-medium" then 1
  else 0.

Definition bimp (a b : bool) : Prop := a = true -> b = true.

(** * Properties *)

(* ------------------------------------------------------------------ *)
(** ** Sorting *)

Lemma insert_dur_perm (x : Z) (l : list Z) : Permutation (x :: l) (insert_dur x l).
Proof.
  induction l as [|y l IH]; simpl; [reflexivity|].
  destruct (x <=? y); [reflexivity|].
  rewrite perm_swap. constructor. exact IH.
Qed.

Lemma sort_durations_perm (l : list Z) : Permutation l (sort_durations l).
Proof.
  induction l as [|x l IH]; simpl; [reflexivity|].
  rewrite <- insert_dur_perm. constructor. exact IH.
Qed.

Lemma insert_dur_sorted (x : Z) (l : list Z) :
  Sorted Z.le l -> Sorted Z.le (insert_dur x l).
Proof.
  induction 1 as [|y l Hl IH Hhd]; simpl; [repeat constructor|].
  destruct (x <=? y) eqn:Hxy.
  - apply Z.leb_le in Hxy. repeat constructor; assumption.
  - apply Z.leb_gt in Hxy. constructor; [exact IH|].
    destruct l as [|z l]; simpl.
    + constructor. lia.
    + inversion Hhd; subst. destruct (x <=? z); constructor; lia.
Qed.

Lemma sort_durations_sorted (l : list Z) : Sorted Z.le (sort_durations l).
Proof.
  induction l; simpl; [constructor|]. apply insert_dur_sorted; assumption.
Qed.

Lemma sort_durations_length (l : list Z) : length (sort_durations l) = length l.
Proof. symmetry. apply Permutation_length, sort_durations_perm. Qed.


(* ------------------------------------------------------------------ *)
(** ** Binary64 rounding *)





Lemma pow2_le_inv (a b : Z) : (pow2 a <= pow2 b)%Q -> a <= b.
Proof. intros H. apply (Qpower_le_compat_l_inv (inject_Z 2)); [exact H|]. reflexivity. Qed.



































Lemma clamp_index_min (idx n : Z) : clamp_index idx n = Z.min idx (n - 1).
Proof. unfold clamp_index. destruct (idx >=? n) eqn:E; lia. Qed.


(* ------------------------------------------------------------------ *)
(** ** Stats engine *)






(* ------------------------------------------------------------------ *)
(** ** Merging completed executions *)

Lemma firstn_firstn_app {A} (n : nat) (l m : list A) :
  firstn n (firstn n l ++ m) = firstn n (l ++ m).
Proof.
  revert l. induction n as [|n IH]; intros l; [reflexivity|].
  destruct l as [|x l]; simpl; [reflexivity|]. f_equal. apply IH.
Qed.

Lemma error_details_step (ed : list string) (e : string) :
  (length ed <= 10)%nat ->
  (if Nat.ltb (length ed) 10 then ed ++ [e] else ed) = firstn 10 (ed ++ [e]).
Proof.
  intros H. destruct (Nat.ltb (length ed) 10) eqn:E.
  - apply Nat.ltb_lt in E. symmetry. apply firstn_all2.
    rewrite length_app. simpl. lia.
  - apply Nat.ltb_ge in E. rewrite firstn_app.
    replace (10 - length ed)%nat with 0%nat by lia. rewrite app_nil_r.
    symmetry. apply firstn_all2. lia.
Qed.

Ltac destruct_ifs :=
  repeat match goal with
         | |- context [if ?c then _ else _] => destruct c eqn:?
         end.

(** One merge of [Analyzer.Run], on the fields read by the claims. *)
Lemma run_merge_step (r : QueryResult) (d : list Z) (q : queryResult) :
  (length (ErrorDetails r) <= 10)%nat ->
  let '(r1, d1) := run_merge (r, d) q in
  length (Executions r1) = S (length (Executions r)) /\
  SuccessfulExecutions r1 = SuccessfulExecutions r + Z.of_nat (length (succ_durs [q])) /\
  Errors r1 = Errors r + Z.of_nat (length (err_msgs [q])) /\
  ErrorDetails r1 = firstn 10 (ErrorDetails r ++ err_msgs [q]) /\
  MinDuration r1 = fold_left Z.min (succ_durs [q]) (MinDuration r) /\
  d1 = d ++ succ_durs [q].
Proof.
  intros Hed. unfold run_merge, succ_durs, err_msgs. simpl flat_map.
  destruct (q_err q) as [e|]; destruct_ifs; cbn -[firstn] in *; rewrite ?app_nil_r;
    rewrite ?length_app; simpl length; rewrite ?Nat.add_1_r;
    repeat split; try lia; try reflexivity.
  all: repeat match goal with
         | H : (_ =? _)%nat = _ |- _ => clear H
         | H : (_ <? _)%nat = true |- _ => apply Nat.ltb_lt in H
         | H : (_ <? _)%nat = false |- _ => apply Nat.ltb_ge in H
         | H : (_ <=? _)%nat = true |- _ => apply Nat.leb_le in H
         | H : (_ <=? _)%nat = false |- _ => apply Nat.leb_gt in H
         | H : (_ <? _) = true |- _ => apply Z.ltb_lt in H
         | H : (_ <? _) = false |- _ => apply Z.ltb_ge in H
         | H : (_ >? _) = _ |- _ => clear H
         end.
  all: try (symmetry; apply firstn_all2; rewrite length_app; simpl; lia).
  all: try (rewrite firstn_app, firstn_all2 by lia;
            replace (10 - length (ErrorDetails r))%nat with 0%nat by lia;
            simpl firstn; rewrite app_nil_r; reflexivity).
  all: try (symmetry; apply firstn_all2; lia).
  all: lia.
Qed.

(** What folding [run_merge] over the completions does to the fields
    read by the claims. *)
Lemma run_merge_fold (qs : list queryResult) (r : QueryResult) (d : list Z) :
  (length (ErrorDetails r) <= 10)%nat ->
  let '(r', d') := fold_left run_merge qs (r, d) in
  length (Executions r') = (length (Executions r) + length qs)%nat /\
  SuccessfulExecutions r' = SuccessfulExecutions r + Z.of_nat (length (succ_durs qs)) /\
  Errors r' = Errors r + Z.of_nat (length (err_msgs qs)) /\
  ErrorDetails r' = firstn 10 (ErrorDetails r ++ err_msgs qs) /\
  MinDuration r' = fold_left Z.min (succ_durs qs) (MinDuration r) /\
  d' = d ++ succ_durs qs.
Proof.
  revert r d. induction qs as [|q qs IH]; intros r d Hed.
  - cbn [fold_left length succ_durs err_msgs flat_map].
    rewrite !app_nil_r, Nat.add_0_r, firstn_all2 by exact Hed.
    repeat split; lia.
  - change (fold_left run_merge (q :: qs) (r, d)) with (fold_left run_merge qs (run_merge (r, d) q)).
    pose proof (run_merge_step r d q Hed) as Hs.
    destruct (run_merge (r, d) q) as [r1 d1].
    destruct Hs as (F1 & F2 & F3 & F4 & F5 & F6).
    assert (Hlen : (length (ErrorDetails r1) <= 10)%nat)
      by (rewrite F4, length_firstn; lia).
    specialize (IH r1 d1 Hlen).
    destruct (fold_left run_merge qs (r1, d1)) as [r' d'].
    destruct IH as (G1 & G2 & G3 & G4 & G5 & G6).
    change (q :: qs) with ([q] ++ qs).
    unfold succ_durs, err_msgs in *. rewrite !flat_map_app, !length_app, fold_left_app.
    rewrite G4, F4, firstn_firstn_app, <- app_assoc, G5, F5, G6, F6, <- app_assoc.
    simpl length in *. repeat split; lia.
Qed.

Ltac merge_arith :=
  repeat match goal with
         | H : (_ =? _)%nat = _ |- _ => clear H
         | H : (_ <? _)%nat = true |- _ => apply Nat.ltb_lt in H
         | H : (_ <? _)%nat = false |- _ => apply Nat.ltb_ge in H
         | H : (_ <=? _)%nat = true |- _ => apply Nat.leb_le in H
         | H : (_ <=? _)%nat = false |- _ => apply Nat.leb_gt in H
         | H : (_ <? _) = true |- _ => apply Z.ltb_lt in H
         | H : (_ <? _) = false |- _ => apply Z.ltb_ge in H
         | H : (_ >? _) = _ |- _ => clear H
         end.

(** One merge of [ExecuteBatch], on the fields read by the claims. *)
Lemma batch_merge_step (r : QueryResult) (e : QueryExecution) :
  (length (ErrorDetails r) <= 10)%nat ->
  let r1 := batch_merge r e in
  Executions r1 = Executions r ++ [e] /\
  SuccessfulExecutions r1 = SuccessfulExecutions r + Z.of_nat (length (batch_succ_durs [e])) /\
  Errors r1 = Errors r + Z.of_nat (length (batch_err_msgs [e])) /\
  ErrorDetails r1 = firstn 10 (ErrorDetails r ++ batch_err_msgs [e]) /\
  MinDuration r1 = fold_left Z.min (batch_succ_durs [e]) (MinDuration r).
Proof.
  intros Hed. unfold batch_merge, batch_succ_durs, batch_err_msgs, is_success.
  simpl filter.
  destruct (ex_Error e) as [m|]; destruct_ifs; cbn -[firstn] in *;
    rewrite ?app_nil_r; repeat split; try lia; try reflexivity; merge_arith.
  all: try (symmetry; apply firstn_all2; rewrite length_app; simpl; lia).
  all: try (rewrite firstn_app, firstn_all2 by lia;
            replace (10 - length (ErrorDetails r))%nat with 0%nat by lia;
            simpl firstn; rewrite app_nil_r; reflexivity).
  all: try (symmetry; apply firstn_all2; lia).
  all: lia.
Qed.

Lemma batch_merge_fold (es : list QueryExecution) (r : QueryResult) :
  (length (ErrorDetails r) <= 10)%nat ->
  let r' := fold_left batch_merge es r in
  Executions r' = Executions r ++ es /\
  SuccessfulExecutions r' = SuccessfulExecutions r + Z.of_nat (length (batch_succ_durs es)) /\
  Errors r' = Errors r + Z.of_nat (length (batch_err_msgs es)) /\
  ErrorDetails r' = firstn 10 (ErrorDetails r ++ batch_err_msgs es) /\
  MinDuration r' = fold_left Z.min (batch_succ_durs es) (MinDuration r).
Proof.
  revert r. induction es as [|e es IH]; intros r Hed.
  - cbn [fold_left length batch_succ_durs batch_err_msgs filter map].
    rewrite !app_nil_r, firstn_all2 by exact Hed.
    repeat split; lia.
  - cbn [fold_left].
    destruct (batch_merge_step r e Hed) as (F1 & F2 & F3 & F4 & F5).
    assert (Hlen : (length (ErrorDetails (batch_merge r e)) <= 10)%nat)
      by (rewrite F4, length_firstn; lia).
    destruct (IH _ Hlen) as (G1 & G2 & G3 & G4 & G5).
    change (e :: es) with ([e] ++ es).
    unfold batch_succ_durs, batch_err_msgs in *.
    rewrite !filter_app, !map_app, !length_app, fold_left_app.
    rewrite G1, F1, G4, F4, firstn_firstn_app, G5, F5, <- !app_assoc.
    repeat split; lia.
Qed.

(** Finalization leaves the counters, the lists and the minimum alone. *)
Lemma run_finalize_fields (r : QueryResult) (d : list Z) :
  let r' := run_finalize (r, d) in
  Executions r' = Executions r /\ SuccessfulExecutions r' = SuccessfulExecutions r /\
  Errors r' = Errors r /\ ErrorDetails r' = ErrorDetails r /\
  MinDuration r' = MinDuration r.
Proof.
  unfold run_finalize. destruct (SuccessfulExecutions r >? 0), d; cbn; repeat split.
Qed.

Lemma batch_finalize_fields (r : QueryResult) :
  let r' := batch_finalize r in
  Executions r' = Executions r /\ SuccessfulExecutions r' = SuccessfulExecutions r /\
  Errors r' = Errors r /\ ErrorDetails r' = ErrorDetails r /\
  MinDuration r' = MinDuration r.
Proof.
  unfold batch_finalize. destruct (SuccessfulExecutions r >? 0); [|repeat split].
  destruct (map ex_Duration _); cbn; repeat split.
Qed.

(** The fields of one finished query, for both runners. *)
Lemma run_query_fields (name : string) (qs : list queryResult) :
  let r := run_query name qs in
  length (Executions r) = length qs /\
  SuccessfulExecutions r = Z.of_nat (length (succ_durs qs)) /\
  Errors r = Z.of_nat (length (err_msgs qs)) /\
  ErrorDetails r = firstn 10 (err_msgs qs) /\
  MinDuration r = fold_left Z.min (succ_durs qs) Hour.
Proof.
  unfold run_query.
  pose proof (run_merge_fold qs (init_result name) [] ltac:(simpl; lia)) as H.
  destruct (fold_left run_merge qs (init_result name, [])) as [r' d'].
  destruct H as (G1 & G2 & G3 & G4 & G5 & _).
  destruct (run_finalize_fields r' d') as (F1 & F2 & F3 & F4 & F5).
  cbn zeta. rewrite F1, F2, F3, F4, F5, G1, G2, G3, G4, G5. simpl. repeat split.
Qed.

Lemma batch_query_fields (name : string) (es : list QueryExecution) :
  let r := batch_query name es in
  Executions r = es /\
  SuccessfulExecutions r = Z.of_nat (length (batch_succ_durs es)) /\
  Errors r = Z.of_nat (length (batch_err_msgs es)) /\
  ErrorDetails r = firstn 10 (batch_err_msgs es) /\
  MinDuration r = fold_left Z.min (batch_succ_durs es) Hour.
Proof.
  unfold batch_query.
  destruct (batch_merge_fold es (init_result name) ltac:(simpl; lia))
    as (G1 & G2 & G3 & G4 & G5).
  destruct (batch_finalize_fields (fold_left batch_merge es (init_result name)))
    as (F1 & F2 & F3 & F4 & F5).
  cbn zeta. rewrite F1, F2, F3, F4, F5, G1, G2, G3, G4, G5. simpl. repeat split.
Qed.

Lemma succ_err_length (qs : list queryResult) :
  (length (succ_durs qs) + length (err_msgs qs) = length qs)%nat.
Proof.
  induction qs as [|q qs IH]; [reflexivity|].
  unfold succ_durs, err_msgs in *. simpl. rewrite !length_app.
  destruct (q_err q); simpl; lia.
Qed.

Lemma batch_succ_err_length (es : list QueryExecution) :
  (length (batch_succ_durs es) + length (batch_err_msgs es) = length es)%nat.
Proof.
  induction es as [|e es IH]; [reflexivity|].
  unfold batch_succ_durs, batch_err_msgs in *. simpl.
  destruct (is_success e); simpl; lia.
Qed.

(** C6: in a finished [QueryResult] of either runner, successful
    executions plus errors equals the number of recorded executions, and
    every completed execution is recorded exactly once. *)
Theorem counts_match_executions :
  (forall (name : string) (qs : list queryResult),
     let r := run_query name qs in
     SuccessfulExecutions r + Errors r = Z.of_nat (length (Executions r)) /\
     length (Executions r) = length qs) /\
  (forall (name : string) (es : list QueryExecution),
     let r := batch_query name es in
     SuccessfulExecutions r + Errors r = Z.of_nat (length (Executions r)) /\
     Executions r = es).
Proof.
  split.
  - intros name qs r.
    destruct (run_query_fields name qs) as (F1 & F2 & F3 & _).
    fold r in F1, F2, F3. rewrite F1, F2, F3, <- (succ_err_length qs), Nat2Z.inj_add. split; reflexivity.
  - intros name es r.
    destruct (batch_query_fields name es) as (F1 & F2 & F3 & _).
    fold r in F1, F2, F3. rewrite F1, F2, F3, <- (batch_succ_err_length es), Nat2Z.inj_add. split; reflexivity.
Qed.

(** C7 (amended): the error-detail list holds the messages of the first
    (at most) ten failed executions in merge order, duplicates included,
    while the error counter counts every failure; so after more than ten
    failures the list has exactly ten entries and [Errors] the true count. *)
Theorem error_details_first_ten :
  (forall (name : string) (qs : list queryResult),
     let r := run_query name qs in
     ErrorDetails r = firstn 10 (err_msgs qs) /\
     Errors r = Z.of_nat (length (err_msgs qs)) /\
     length (ErrorDetails r) = Nat.min 10 (length (err_msgs qs))) /\
  (forall (name : string) (es : list QueryExecution),
     let r := batch_query name es in
     ErrorDetails r = firstn 10 (batch_err_msgs es) /\
     Errors r = Z.of_nat (length (batch_err_msgs es)) /\
     length (ErrorDetails r) = Nat.min 10 (length (batch_err_msgs es))).
Proof.
  split.
  - intros name qs r.
    destruct (run_query_fields name qs) as (_ & _ & F3 & F4 & _).
    fold r in F3, F4. rewrite F4, length_firstn. auto.
  - intros name es r.
    destruct (batch_query_fields name es) as (_ & _ & F3 & F4 & _).
    fold r in F3, F4. rewrite F4, length_firstn. auto.
Qed.

(** C7 fails as stated: eleven failures with the same message leave ten
    copies of it in the error-detail list, which is not a list of
    distinct messages. *)
Lemma error_details_not_distinct :
  let r := run_query "Q" (repeat (mkqueryResult 1 0 (Some "Deadlock found"%string) 0) 11) in
  Errors r = 11 /\ length (ErrorDetails r) = 10%nat /\ ~ NoDup (ErrorDetails r).
Proof.
  cbv zeta. vm_compute. split; [reflexivity|split; [reflexivity|]].
  intros H. inversion H as [|x l Hx _]. apply Hx. left. reflexivity.
Qed.

(* ------------------------------------------------------------------ *)
(** ** The [MinDuration] sentinel *)

Lemma fold_min_bounds (l : list Z) (h : Z) :
  fold_left Z.min l h <= h /\ Forall (fun d => fold_left Z.min l h <= d) l /\
  In (fold_left Z.min l h) (h :: l).
Proof.
  revert h. induction l as [|x l IH]; intros h; simpl.
  - split; [lia|split; [constructor|left; reflexivity]].
  - destruct (IH (Z.min h x)) as (H1 & H2 & H3). split; [lia|split].
    + constructor; [lia|exact H2].
    + destruct H3 as [H3|H3]; [|right; right; exact H3].
      rewrite <- H3.
      destruct (Z.min_spec h x) as [[_ E]|[_ E]]; rewrite E;
        [left; reflexivity|right; left; reflexivity].
Qed.

Lemma fold_min_attained (l : list Z) (h : Z) :
  Exists (fun d => d <= h) l ->
  In (fold_left Z.min l h) l /\ Forall (fun d => fold_left Z.min l h <= d) l.
Proof.
  intros Hex. destruct (fold_min_bounds l h) as (H1 & H2 & H3). split; [|exact H2].
  destruct H3 as [H3|H3]; [|exact H3].
  apply Exists_exists in Hex. destruct Hex as (x & Hx & Hxh).
  rewrite Forall_forall in H2. specialize (H2 x Hx).
  replace (fold_left Z.min l h) with x by lia. exact Hx.
Qed.

Lemma Hour_nonzero : Hour <> 0.
Proof. unfold Hour. lia. Qed.

(** The sentinel property of the minimum, for the successful durations
    [ds] of one query and the [MinDuration] [m] a runner produced. *)
Definition min_sentinel_spec (succ : Z) (ds : list Z) (m : Z) : Prop :=
  m = fold_left Z.min ds Hour /\
  (succ = 0 -> m = Hour /\ m <> 0) /\
  (Exists (fun d => d <= Hour) ds -> In m ds /\ Forall (fun d => m <= d) ds).

Lemma min_sentinel_holds (ds : list Z) :
  min_sentinel_spec (Z.of_nat (length ds)) ds (fold_left Z.min ds Hour).
Proof.
  split; [reflexivity|split].
  - intros H0. destruct ds; [|simpl in H0; lia]. split; [reflexivity|exact Hour_nonzero].
  - apply fold_min_attained.
Qed.

(** C9 (amended): [MinDuration] starts at the finite sentinel [time.Hour]
    and only successful executions lower it: it is the minimum of [Hour]
    and the successful durations.  With no successful execution it stays
    at [Hour], which is not 0; it is the minimum successful duration
    whenever some successful execution took at most an hour. *)
Theorem min_duration_sentinel :
  (forall (name : string) (qs : list queryResult),
     let r := run_query name qs in
     min_sentinel_spec (SuccessfulExecutions r) (succ_durs qs) (MinDuration r)) /\
  (forall (name : string) (es : list QueryExecution),
     let r := batch_query name es in
     min_sentinel_spec (SuccessfulExecutions r) (batch_succ_durs es) (MinDuration r)).
Proof.
  split.
  - intros name qs r. destruct (run_query_fields name qs) as (_ & F2 & _ & _ & F5).
    fold r in F2, F5. rewrite F2, F5. apply min_sentinel_holds.
  - intros name es r. destruct (batch_query_fields name es) as (_ & F2 & _ & _ & F5).
    fold r in F2, F5. rewrite F2, F5. apply min_sentinel_holds.
Qed.

(** C9 fails as stated: the sentinel is one hour, not +infinity, so a
    query whose only execution succeeded after two hours (possible with a
    timeout above two hours) reports a [MinDuration] of one hour. *)
Lemma min_duration_hour_cap :
  let r := run_query "Q" [mkqueryResult (2 * Hour) 0 None 0] in
  SuccessfulExecutions r = 1 /\ succ_durs [mkqueryResult (2 * Hour) 0 None 0] = [2 * Hour] /\
  MinDuration r = Hour /\ MinDuration r <> 2 * Hour.
Proof. vm_compute. repeat split. discriminate. Qed.

(* ------------------------------------------------------------------ *)
(** ** Finalization *)

Lemma run_merge_keeps_stats (r : QueryResult) (d : list Z) (q : queryResult) :
  let r1 := fst (run_merge (r, d) q) in
  MedianDuration r1 = MedianDuration r /\ Percentile99 r1 = Percentile99 r /\
  StdDevDuration r1 = StdDevDuration r.
Proof.
  unfold run_merge. destruct (q_err q); destruct_ifs; cbn; repeat split.
Qed.

Lemma run_fold_keeps_stats (qs : list queryResult) (r : QueryResult) (d : list Z) :
  let r' := fst (fold_left run_merge qs (r, d)) in
  MedianDuration r' = MedianDuration r /\ Percentile99 r' = Percentile99 r /\
  StdDevDuration r' = StdDevDuration r.
Proof.
  revert r d. induction qs as [|q qs IH]; intros r d; [repeat split|].
  change (fold_left run_merge (q :: qs) (r, d)) with (fold_left run_merge qs (run_merge (r, d) q)).
  pose proof (run_merge_keeps_stats r d q) as Hs.
  destruct (run_merge (r, d) q) as [r1 d1]. simpl in Hs.
  destruct Hs as (H1 & H2 & H3). destruct (IH r1 d1) as (G1 & G2 & G3).
  cbn zeta. rewrite G1, G2, G3. auto.
Qed.

(** C3: [Analyzer.Run], the runner the command line uses, never computes
    the median, p99 or standard deviation: they stay at zero for every
    query, whereas [ExecuteBatch] computes all four statistics; with two
    successful executions of 10ns and 20ns, [Run] reports median, p99 and
    standard deviation 0, [ExecuteBatch] reports 20, 20 and 5. *)
Theorem Run_skips_median_p99_stddev :
  (forall (name : string) (qs : list queryResult),
     let r := run_query name qs in
     MedianDuration r = 0 /\ Percentile99 r = 0 /\ StdDevDuration r = 0) /\
  (let r := run_query "Q" [mkqueryResult 10 0 None 0; mkqueryResult 20 0 None 1] in
   SuccessfulExecutions r = 2 /\ AvgDuration r = 15 /\ Percentile95 r = 20 /\
   MedianDuration r = 0 /\ Percentile99 r = 0 /\ StdDevDuration r = 0) /\
  (let b := batch_query "Q" [mkQueryExecution 0 10 0 None EmptyString;
                             mkQueryExecution 1 20 0 None EmptyString] in
   SuccessfulExecutions b = 2 /\ AvgDuration b = 15 /\ Percentile95 b = 20 /\
   MedianDuration b = 20 /\ Percentile99 b = 20 /\ StdDevDuration b = 5).
Proof.
  split; [|split; vm_compute; repeat split].
  intros name qs r. unfold r, run_query.
  pose proof (run_fold_keeps_stats qs (init_result name) []) as H.
  destruct (fold_left run_merge qs (init_result name, [])) as [r' d'].
  simpl in H. destruct H as (H1 & H2 & H3).
  unfold run_finalize.
  destruct (SuccessfulExecutions r' >? 0), d'; cbn; auto.
Qed.

(* ------------------------------------------------------------------ *)
(** ** Run summarizer *)

(** C1: [calculateSummary] averages the [AvgDuration] of every query,
    dividing by the number of all queries: a query with no successful
    execution (average left at 0) is counted as a zero-duration sample.
    With one query averaging 100ms and one that always failed, the
    summary reports 50ms where the average over the defined averages is
    100ms. *)
Theorem summary_avg_includes_undefined :
  let qA := run_query "A" [mkqueryResult 100000000 1 None 0] in
  let qB := run_query "B" [mkqueryResult 5000000 0 (Some "Deadlock found"%string) 0] in
  SuccessfulExecutions qA = 1 /\ AvgDuration qA = 100000000 /\
  SuccessfulExecutions qB = 0 /\ AvgDuration qB = 0 /\
  (sm_AvgDurationMs (calculateSummary [qA; qB]) == 50)%Q /\
  (spec_overall_avg_ms [qA; qB] == 100)%Q.
Proof. vm_compute. repeat split; reflexivity. Qed.

(* ------------------------------------------------------------------ *)
(** ** Standard deviation conventions *)

(** C4: the two standard-deviation functions of the stats engine use
    different denominators.  On [[0; 2; 4]] (mean 2, sum of squared
    deviations 8), [CalculateStats] divides by N and returns
    [floor(sqrt(8/3)) = 1], while [CalculateStandardDeviation] divides by
    N - 1 and returns [floor(sqrt(8/2)) = 2]. *)
Theorem stddev_conventions_differ :
  sum_squares [0; 2; 4] 2 = 8 /\
  st_StdDev (CalculateStats [0; 2; 4]) = Z.sqrt (8 / 3) /\
  Z.sqrt (8 / 3) = 1 /\
  CalculateStandardDeviation [0; 2; 4] 2 = Z.sqrt (8 / 2) /\
  Z.sqrt (8 / 2) = 2.
Proof. vm_compute. repeat split. Qed.

(* ------------------------------------------------------------------ *)
(** ** Comparator *)

Lemma sum_successful_acc (l : list QueryResult) (t c : Z) :
  fold_left (fun '(total, count) q =>
               if SuccessfulExecutions q >? 0
               then (dur_add total (AvgDuration q), count + 1)
               else (total, count)) l (t, c) =
  (fold_left dur_add (map AvgDuration (filter has_success l)) t,
   c + Z.of_nat (length (filter has_success l))).
Proof.
  revert t c. induction l as [|q l IH]; intros t c; cbn [fold_left filter map length].
  { f_equal. lia. }
  change (SuccessfulExecutions q >? 0) with (has_success q).
  destruct (has_success q); cbn [fold_left filter map length]; rewrite IH.
  - f_equal. lia.
  - reflexivity.
Qed.

Lemma sum_successful_filter (l : list QueryResult) :
  sum_successful l =
  (fold_left dur_add (map AvgDuration (filter has_success l)) 0,
   Z.of_nat (length (filter has_success l))).
Proof. unfold sum_successful. apply sum_successful_acc. Qed.

Lemma filter_idem {A} (f : A -> bool) (l : list A) : filter f (filter f l) = filter f l.
Proof.
  induction l as [|x l IH]; simpl; [reflexivity|].
  destruct (f x) eqn:E; simpl; rewrite ?E, IH; reflexivity.
Qed.

(** C8 (amended): each side of the aggregate improvement is the mean of
    the per-query averages over the queries of that run alone which have
    a successful execution in that run; the two filters are independent,
    with no matching of names, and the result is 0 when either side has
    no such query. *)
Theorem aggregate_improvement_per_run :
  forall before after : list QueryResult,
    sum_successful before =
      (fold_left dur_add (map AvgDuration (filter has_success before)) 0,
       Z.of_nat (length (filter has_success before))) /\
    sum_successful after =
      (fold_left dur_add (map AvgDuration (filter has_success after)) 0,
       Z.of_nat (length (filter has_success after))) /\
    avg_time_improvement before after =
      avg_time_improvement (filter has_success before) (filter has_success after) /\
    ((filter has_success before = [] \/ filter has_success after = []) ->
       avg_time_improvement before after = 0%Q).
Proof.
  intros before after.
  split; [apply sum_successful_filter|split; [apply sum_successful_filter|split]].
  - unfold avg_time_improvement.
    rewrite !(sum_successful_filter (filter _ _)), !filter_idem, !sum_successful_filter.
    reflexivity.
  - intros Hnil. unfold avg_time_improvement. rewrite !sum_successful_filter.
    destruct Hnil as [-> | ->]; simpl;
      [reflexivity|destruct (Z.of_nat _ >? 0); reflexivity].
Qed.

(** C8 fails as stated: query B succeeds only in the before run, yet it
    enters the before side's average (100ms and 200ms give 150ms, against
    100ms after), so the aggregate is 100/3 %, where restricting both sides
    to the queries successful in both runs gives 0 %. *)
Lemma aggregate_counts_one_sided_query :
  let bA := run_query "A" [mkqueryResult 100000000 1 None 0] in
  let bB := run_query "B" [mkqueryResult 200000000 1 None 0] in
  let aB := run_query "B" [mkqueryResult 5000000 0 (Some "Deadlock found"%string) 0] in
  (avg_time_improvement [bA; bB] [bA; aB] == 100 # 3)%Q /\
  (spec_avg_time_improvement [bA; bB] [bA; aB] == 0)%Q.
Proof. vm_compute. split; reflexivity. Qed.

(* ------------------------------------------------------------------ *)
(** ** Execution unit timing *)

Lemma drain_rows_spec (rows : list Z) (n c : Z) :
  drain_rows rows n c = (n + Z.of_nat (length rows), c + fold_right Z.add 0 rows).
Proof.
  unfold drain_rows. revert n c.
  induction rows as [|x rows IH]; intros n c; cbn [fold_left fold_right length].
  - f_equal; lia.
  - rewrite IH. f_equal; lia.
Qed.

(** C2 (amended): both execution units record as duration the time the
    [QueryContext] call took to return, i.e. until the database answered
    or failed; the time spent draining the result rows comes after the
    measurement and is not included in it.  The function returns at the
    instant the rows are drained. *)
Theorem duration_excludes_drain :
  forall (resp : DbResponse) (clock : Z),
    q_duration (fst (executeQuery resp clock)) = issue_latency resp /\
    ex_Duration (fst (ExecuteQuery resp clock)) = issue_latency resp /\
    snd (executeQuery resp clock) = drain_complete resp clock /\
    snd (ExecuteQuery resp clock) = drain_complete resp clock /\
    drain_complete resp clock - clock = issue_latency resp + drain_time resp.
Proof.
  intros resp clock.
  unfold executeQuery, ExecuteQuery, drain_complete, drain_time.
  destruct (issue_outcome resp) as [msg|rows last err].
  - cbn. repeat split; lia.
  - rewrite drain_rows_spec. cbn. repeat split; lia.
Qed.

(** C2 fails as stated: with a 5ns query call followed by two rows of 3ns
    and a final 1ns fetch, the rows are drained 12ns after dispatch but the
    recorded duration is 5ns. *)
Lemma duration_stops_before_drain :
  let resp := mkDbResponse 5 (RowsReturned [3; 3] 1 None) in
  q_duration (fst (executeQuery resp 1000)) = 5 /\
  drain_complete resp 1000 - 1000 = 12 /\
  q_duration (fst (executeQuery resp 1000)) <> drain_complete resp 1000 - 1000.
Proof. vm_compute. repeat split. discriminate. Qed.

(* ------------------------------------------------------------------ *)
(** ** Admission gate *)

Lemma filter_length_le_impl {A} (f g : A -> bool) (l : list A) :
  (forall x, f x = true -> g x = true) ->
  (length (filter f l) <= length (filter g l))%nat.
Proof.
  intros Hfg. induction l as [|x l IH]; simpl; [lia|].
  destruct (f x) eqn:Ef; [rewrite (Hfg x Ef); simpl; lia|].
  destruct (g x); simpl; lia.
Qed.

Lemma filter_middle {A} (f : A -> bool) (l1 l2 : list A) (x : A) :
  length (filter f (l1 ++ x :: l2)) =
  (length (filter f (l1 ++ l2)) + (if f x then 1 else 0))%nat.
Proof.
  rewrite !filter_app, !length_app. simpl. destruct (f x); simpl; lia.
Qed.

(** Invariant of [Analyzer.Run]: every live goroutine holds one token. *)
Lemma RunGate_invariant (C : nat) (iterations : list nat) (s : RunGate.state) :
  RunGate.reachable C iterations s ->
  RunGate.sem s = length (RunGate.workers s) /\ (RunGate.sem s <= C)%nat.
Proof.
  induction 1 as [|s s' Hr IH Hstep]; [simpl; lia|].
  destruct IH as [IH1 IH2].
  inversion Hstep; subst; simpl in *; rewrite ?length_app in *; simpl in *; lia.
Qed.

(** Invariant of [ExecuteBatch]: the tokens are those of the goroutines
    between [qe.semaphore <- struct{}{}] and [<-qe.semaphore]. *)
Lemma BatchGate_invariant (C iterations nqueries : nat) (s : BatchGate.state) :
  BatchGate.reachable C iterations nqueries s ->
  BatchGate.sem s = length (filter BatchGate.holds_token (BatchGate.workers s)) /\
  (BatchGate.sem s <= C)%nat.
Proof.
  induction 1 as [|s s' Hr IH Hstep].
  - simpl. split; [|lia].
    induction nqueries as [|m IHm]; simpl; [reflexivity|exact IHm].
  - destruct IH as [IH1 IH2].
    inversion Hstep; subst; simpl in *; rewrite ?filter_middle in *; simpl in *; lia.
Qed.

(** C5: in every reachable state of either runner, for every concurrency
    limit [C], at most [C] executions are in flight; a goroutine whose
    execution finished, successfully or not, can always give its token
    back. *)
Theorem admission_gate_bound :
  (forall (C : nat) (iterations : list nat) (s : RunGate.state),
     RunGate.reachable C iterations s ->
     (RunGate.in_flight s <= C)%nat /\
     (forall rest n l1 ok l2,
        s = RunGate.mkState rest n (l1 ++ RunGate.Merging ok :: l2) ->
        exists n', n = S n' /\
          RunGate.step C s (RunGate.mkState rest n' (l1 ++ l2)))) /\
  (forall (C iterations nqueries : nat) (s : BatchGate.state),
     BatchGate.reachable C iterations nqueries s ->
     (BatchGate.in_flight s <= C)%nat /\
     (forall n l1 k ok l2,
        s = BatchGate.mkState n (l1 ++ BatchGate.Returned k ok :: l2) ->
        exists n', n = S n' /\
          BatchGate.step C s (BatchGate.mkState n' (l1 ++ BatchGate.Merging k :: l2)))).
Proof.
  split.
  - intros C iterations s Hr.
    destruct (RunGate_invariant C iterations s Hr) as [H1 H2]. split.
    + unfold RunGate.in_flight. pose proof (filter_length_le RunGate.is_executing (RunGate.workers s)).
      lia.
    + intros rest n l1 ok l2 ->. simpl in H1. rewrite length_app in H1. simpl in H1.
      destruct n as [|n']; [lia|]. exists n'. split; [reflexivity|]. constructor.
  - intros C iterations nqueries s Hr.
    destruct (BatchGate_invariant C iterations nqueries s Hr) as [H1 H2]. split.
    + unfold BatchGate.in_flight.
      assert (Hle : (length (filter BatchGate.is_executing (BatchGate.workers s)) <=
                     length (filter BatchGate.holds_token (BatchGate.workers s)))%nat).
      { apply filter_length_le_impl. intros [] H; simpl in *; congruence. }
      lia.
    + intros n l1 k ok l2 ->. simpl in H1. rewrite filter_middle in H1. simpl in H1.
      destruct n as [|n']; [lia|]. exists n'. split; [reflexivity|]. constructor.
Qed.

(* ------------------------------------------------------------------ *)
(** ** Instances of the theorems at concrete inputs *)


Lemma admission_gate_bound_witness :
  (RunGate.in_flight (RunGate.mkState [2%nat] 1 [RunGate.Executing]) <= 2)%nat /\
  (BatchGate.in_flight (BatchGate.mkState 1 [BatchGate.Executing 2; BatchGate.Ready 3]) <= 2)%nat.
Proof.
  destruct admission_gate_bound as [HR HB]. split.
  - refine (proj1 (HR 2%nat [3%nat] _ _)).
    apply (RunGate.reach_step _ _ (RunGate.mkState [2%nat] 1 [RunGate.Holding])).
    + apply (RunGate.reach_step _ _ (RunGate.initial [3%nat])); [constructor|].
      apply (RunGate.step_dispatch 2 2 [] 0 []). lia.
    + apply (RunGate.step_begin 2 [2%nat] 1 [] []).
  - refine (proj1 (HB 2%nat 3%nat 2%nat _ _)).
    apply (BatchGate.reach_step _ _ _ (BatchGate.mkState 1 [BatchGate.Holding 2; BatchGate.Ready 3])).
    + apply (BatchGate.reach_step _ _ _ (BatchGate.initial 3 2)); [constructor|].
      apply (BatchGate.step_acquire 2 2 0 [] [BatchGate.Ready 3]). lia.
    + apply (BatchGate.step_begin 2 2 1 [] [BatchGate.Ready 3]).
Defined.

Lemma aggregate_improvement_per_run_witness :
  avg_time_improvement [run_query "A" [mkqueryResult 100000000 1 None 0]]
                       [run_query "A" [mkqueryResult 5000000 0 (Some "Deadlock found"%string) 0]]
  = 0%Q.
Proof.
  destruct (aggregate_improvement_per_run
              [run_query "A" [mkqueryResult 100000000 1 None 0]]
              [run_query "A" [mkqueryResult 5000000 0 (Some "Deadlock found"%string) 0]])
    as (_ & _ & _ & H).
  apply H. right. vm_compute. reflexivity.
Defined.

Lemma min_duration_sentinel_witness :
  MinDuration (run_query "Q" [mkqueryResult 7 0 (Some "Deadlock found"%string) 0]) = Hour /\
  In (MinDuration (run_query "Q" [mkqueryResult 7 0 None 0; mkqueryResult 9 0 None 0]))
     (succ_durs [mkqueryResult 7 0 None 0; mkqueryResult 9 0 None 0]).
Proof.
  destruct min_duration_sentinel as [H _]. split.
  - destruct (H "Q"%string [mkqueryResult 7 0 (Some "Deadlock found"%string) 0]) as (_ & H0 & _).
    refine (proj1 (H0 _)). vm_compute. reflexivity.
  - destruct (H "Q"%string [mkqueryResult 7 0 None 0; mkqueryResult 9 0 None 0]) as (_ & _ & H1).
    refine (proj1 (H1 _)). simpl. apply Exists_cons_hd. unfold Hour. lia.
Defined.


(* ------------------------------------------------------------------ *)
(** ** Further properties of the code *)

Lemma sorted_nth_mono (s : list Z) (i j : nat) :
  Sorted Z.le s -> (i <= j < length s)%nat -> nth i s 0 <= nth j s 0.
Proof.
  intros Hs. apply Sorted_StronglySorted in Hs; [|intros ???; lia].
  revert i j. induction Hs as [|a l Hl IH Ha]; intros i j Hij; simpl in *; [lia|].
  destruct i as [|i], j as [|j]; try lia.
  - rewrite Forall_forall in Ha. apply Ha. apply nth_In. lia.
  - apply IH. lia.
Qed.

(** The first and last elements of the sorted copy are the extremes. *)
Lemma sorted_copy_extremes (D : list Z) :
  D <> [] ->
  let s := sort_durations D in
  In (nth 0 s 0) D /\ In (nth (length s - 1) s 0) D /\
  Forall (fun d => nth 0 s 0 <= d <= nth (length s - 1) s 0) D.
Proof.
  intros HD s.
  assert (Hp : Permutation D s) by apply sort_durations_perm.
  assert (Hs : Sorted Z.le s) by apply sort_durations_sorted.
  assert (Hn : (0 < length s)%nat)
    by (unfold s; rewrite sort_durations_length; destruct D; [contradiction|simpl; lia]).
  split; [|split].
  - apply (Permutation_in _ (Permutation_sym Hp)). apply nth_In. lia.
  - apply (Permutation_in _ (Permutation_sym Hp)). apply nth_In. lia.
  - apply Forall_forall. intros d Hd.
    apply (Permutation_in _ Hp) in Hd. apply (In_nth _ _ 0) in Hd.
    destruct Hd as (k & Hk & <-).
    split; apply sorted_nth_mono; auto; lia.
Qed.

Lemma clamp_pct_bounds (n a : Z) :
  0 < n -> 0 <= a -> 0 <= clamp_index (n * a / 100) n <= n - 1.
Proof.
  intros Hn Ha. rewrite clamp_index_min.
  assert (0 <= n * a / 100) by (apply Z.div_pos; lia). lia.
Qed.

Lemma clamp_pct_mono (n a b : Z) :
  0 < n -> 0 <= a <= b -> clamp_index (n * a / 100) n <= clamp_index (n * b / 100) n.
Proof.
  intros Hn Hab. rewrite !clamp_index_min.
  assert (n * a / 100 <= n * b / 100) by (apply Z.div_le_mono; nia). lia.
Qed.

Lemma CalculateStats_fields (D : list Z) :
  D <> [] ->
  let s := sort_durations D in
  let n := Z.of_nat (length D) in
  let mean := dur_div (fold_left dur_add s 0) n in
  CalculateStats D =
    mkStats (nth 0 s 0) (nth (length s - 1) s 0) mean
            (nth (Z.to_nat (clamp_index (n * 50 / 100) n)) s 0)
            (sqrt_div_to_duration (sum_squares s mean) n)
            (nth (Z.to_nat (clamp_index (n * 95 / 100) n)) s 0)
            (nth (Z.to_nat (clamp_index (n * 99 / 100) n)) s 0) n.
Proof.
  intros HD s n mean. destruct D as [|d D']; [contradiction|].
  unfold CalculateStats. cbv zeta. fold s. unfold mean, n.
  rewrite <- (sort_durations_length (d :: D')). fold s.
  f_equal. f_equal. lia.
Qed.

(** X1: for a non-empty list, the statistics [CalculateStats] reports are
    ordered as order statistics: Min and Max are elements of the list
    bounding every element, Min <= Median <= P95 <= P99 <= Max, and
    Samples is the length of the list. *)
Theorem CalculateStats_ordered (D : list Z) :
  D <> [] ->
  let st := CalculateStats D in
  In (st_Min st) D /\ In (st_Max st) D /\
  Forall (fun d => st_Min st <= d <= st_Max st) D /\
  st_Min st <= st_Median st <= st_P95 st /\ st_P95 st <= st_P99 st <= st_Max st /\
  st_Samples st = Z.of_nat (length D).
Proof.
  intros HD st. unfold st. rewrite (CalculateStats_fields D HD). cbn [st_Min st_Max st_Median st_P95 st_P99 st_Samples].
  destruct (sorted_copy_extremes D HD) as (H1 & H2 & H3).
  set (s := sort_durations D) in *.
  assert (Hs : Sorted Z.le s) by apply sort_durations_sorted.
  assert (Hl : length s = length D) by apply sort_durations_length.
  assert (Hn : 0 < Z.of_nat (length D)) by (destruct D; [contradiction|simpl; lia]).
  set (n := Z.of_nat (length D)) in *.
  pose proof (clamp_pct_bounds n 50 Hn ltac:(lia)).
  pose proof (clamp_pct_bounds n 95 Hn ltac:(lia)).
  pose proof (clamp_pct_bounds n 99 Hn ltac:(lia)).
  pose proof (clamp_pct_mono n 50 95 Hn ltac:(lia)).
  pose proof (clamp_pct_mono n 95 99 Hn ltac:(lia)).
  repeat split; try assumption.
  all: apply sorted_nth_mono; [exact Hs|]; lia.
Qed.

Lemma wrap64_small (z : Z) : - two63 <= z < two63 -> wrap64 z = z.
Proof.
  intros Hz. unfold wrap64, two63, two64 in *.
  destruct (Z.le_gt_cases 0 z).
  - rewrite Z.mod_small by lia. destruct (z >=? 2 ^ 63) eqn:E; lia.
  - rewrite <- (Z.mod_unique_pos z (2 ^ 64) (-1) (z + 2 ^ 64)) by lia.
    destruct (z + 2 ^ 64 >=? 2 ^ 63) eqn:E; lia.
Qed.

Lemma sum_nonneg (l : list Z) : Forall (fun d => 0 <= d) l -> 0 <= fold_right Z.add 0 l.
Proof. induction 1; simpl; lia. Qed.

Lemma sum_perm (l l' : list Z) : Permutation l l' -> fold_right Z.add 0 l = fold_right Z.add 0 l'.
Proof. induction 1; simpl; lia. Qed.

Lemma sum_bounds (lo hi : Z) (l : list Z) :
  Forall (fun d => lo <= d <= hi) l ->
  lo * Z.of_nat (length l) <= fold_right Z.add 0 l <= hi * Z.of_nat (length l).
Proof. induction 1; simpl; lia. Qed.

Lemma fold_dur_add_exact (l : list Z) (a : Z) :
  Forall (fun d => 0 <= d) l -> 0 <= a -> a + fold_right Z.add 0 l < two63 ->
  fold_left dur_add l a = a + fold_right Z.add 0 l.
Proof.
  intros Hl. revert a. induction Hl as [|x l Hx Hl IH]; intros a Ha Hs; simpl in *; [lia|].
  pose proof (sum_nonneg l Hl).
  unfold dur_add at 2. rewrite wrap64_small by (unfold two63 in *; lia).
  rewrite IH by lia. lia.
Qed.

(** X2: for a non-empty list of non-negative durations whose sum fits
    in an [int64], Mean is the truncated average and lies between Min
    and Max. *)
Theorem CalculateStats_mean_between (D : list Z) :
  D <> [] -> Forall (fun d => 0 <= d) D -> fold_right Z.add 0 D < two63 ->
  let st := CalculateStats D in
  st_Mean st = fold_right Z.add 0 D / Z.of_nat (length D) /\
  st_Min st <= st_Mean st <= st_Max st.
Proof.
  intros HD Hpos Hsum st. unfold st. rewrite (CalculateStats_fields D HD).
  cbn [st_Min st_Max st_Mean].
  destruct (sorted_copy_extremes D HD) as (_ & _ & H3).
  set (s := sort_durations D) in *.
  assert (Hp : Permutation D s) by apply sort_durations_perm.
  assert (Hn : 0 < Z.of_nat (length D)) by (destruct D; [contradiction|simpl; lia]).
  pose proof (sum_nonneg D Hpos) as H0.
  assert (Htot : fold_left dur_add s 0 = fold_right Z.add 0 D).
  { rewrite fold_dur_add_exact.
    - rewrite <- (sum_perm _ _ Hp). lia.
    - exact (Permutation_Forall Hp Hpos).
    - lia.
    - rewrite <- (sum_perm _ _ Hp). lia. }
  assert (Hmean : dur_div (fold_left dur_add s 0) (Z.of_nat (length D)) =
                  fold_right Z.add 0 D / Z.of_nat (length D)).
  { unfold dur_div. rewrite Htot, Z.quot_div_nonneg by lia.
    apply wrap64_small.
    assert (fold_right Z.add 0 D / Z.of_nat (length D) <= fold_right Z.add 0 D)
      by (apply Z.div_le_upper_bound; nia).
    assert (0 <= fold_right Z.add 0 D / Z.of_nat (length D)) by (apply Z.div_pos; lia).
    unfold two63 in *; lia. }
  rewrite Hmean. split; [reflexivity|].
  pose proof (sum_bounds _ _ D H3) as [Hlo Hhi].
  split.
  - apply Z.div_le_lower_bound; lia.
  - apply Z.div_le_upper_bound; lia.
Qed.


Lemma wrap64_mod (a : Z) : wrap64 a mod two64 = a mod two64.
Proof.
  unfold wrap64. destruct (a mod two64 >=? two63).
  - replace (a mod two64 - two64) with (a mod two64 + (-1) * two64) by lia.
    rewrite Z.mod_add by (unfold two64; lia). apply Z.mod_mod. unfold two64; lia.
  - apply Z.mod_mod. unfold two64; lia.
Qed.

Lemma wrap64_congr (a b : Z) : a mod two64 = b mod two64 -> wrap64 a = wrap64 b.
Proof. intros H. unfold wrap64. rewrite H. reflexivity. Qed.

Lemma wrap64_add_l (a b : Z) : wrap64 (wrap64 a + b) = wrap64 (a + b).
Proof.
  assert (Hm : two64 <> 0) by (unfold two64; lia).
  apply wrap64_congr.
  rewrite <- (Z.add_mod_idemp_l (wrap64 a)), wrap64_mod, Z.add_mod_idemp_l by exact Hm.
  reflexivity.
Qed.

Lemma fold_wrap_add (l : list Z) (a : Z) :
  fold_left (fun acc x => wrap64 (acc + x)) l (wrap64 a) = wrap64 (a + fold_right Z.add 0 l).
Proof.
  revert a. induction l as [|x l IH]; intros a; cbn [fold_left fold_right].
  - f_equal. lia.
  - rewrite wrap64_add_l, IH. f_equal. lia.
Qed.

Lemma fold_dur_add_wrap (l : list Z) :
  fold_left dur_add l 0 = wrap64 (fold_right Z.add 0 l).
Proof.
  change 0 with (wrap64 0) at 1. unfold dur_add. rewrite fold_wrap_add. reflexivity.
Qed.

Lemma last_cons {A} (a : A) (l : list A) (d : A) : last (a :: l) d = last l a.
Proof.
  revert a d. induction l as [|b l IH]; intros a d; [reflexivity|].
  change (last (a :: b :: l) d) with (last (b :: l) d). rewrite !IH. reflexivity.
Qed.

(** One merge of [Analyzer.Run], on the accumulated fields. *)
Lemma run_merge_step_totals (r : QueryResult) (d : list Z) (q : queryResult) :
  let '(r1, d1) := run_merge (r, d) q in
  TotalDuration r1 = fold_left dur_add (succ_durs [q]) (TotalDuration r) /\
  RowsAffected r1 = fold_left (fun a x => wrap64 (a + x)) (succ_rows [q]) (RowsAffected r) /\
  MaxDuration r1 = fold_left Z.max (succ_durs [q]) (MaxDuration r) /\
  FirstExecutedAt r1 = (if Nat.eqb (length (Executions r)) 0 then q_startTime q else FirstExecutedAt r) /\
  LastExecutedAt r1 = q_startTime q /\
  Percentile95 r1 = Percentile95 r /\ AvgDuration r1 = AvgDuration r /\
  length (Executions r1) = S (length (Executions r)).
Proof.
  unfold run_merge, succ_durs, succ_rows. simpl flat_map.
  destruct (q_err q) as [e|]; destruct_ifs; cbn -[firstn] in *;
    rewrite ?length_app; simpl length; rewrite ?Nat.add_1_r; repeat split; try lia.
  all: merge_arith.
  all: try (rewrite ?Heqb; reflexivity).
Qed.

Lemma run_merge_fold_totals (qs : list queryResult) (r : QueryResult) (d : list Z) :
  let '(r', d') := fold_left run_merge qs (r, d) in
  TotalDuration r' = fold_left dur_add (succ_durs qs) (TotalDuration r) /\
  RowsAffected r' = fold_left (fun a x => wrap64 (a + x)) (succ_rows qs) (RowsAffected r) /\
  MaxDuration r' = fold_left Z.max (succ_durs qs) (MaxDuration r) /\
  FirstExecutedAt r' = match qs with
                       | [] => FirstExecutedAt r
                       | q :: _ => if Nat.eqb (length (Executions r)) 0 then q_startTime q
                                   else FirstExecutedAt r
                       end /\
  LastExecutedAt r' = last (map q_startTime qs) (LastExecutedAt r) /\
  Percentile95 r' = Percentile95 r /\ AvgDuration r' = AvgDuration r /\
  d' = d ++ succ_durs qs.
Proof.
  revert r d. induction qs as [|q qs IH]; intros r d.
  - cbn. rewrite app_nil_r. repeat split.
  - change (fold_left run_merge (q :: qs) (r, d)) with (fold_left run_merge qs (run_merge (r, d) q)).
    pose proof (run_merge_step_totals r d q) as Hs.
    assert (Hd : snd (run_merge (r, d) q) = d ++ succ_durs [q]).
    { unfold run_merge, succ_durs. simpl flat_map.
      destruct (q_err q); destruct_ifs; cbn; rewrite ?app_nil_r; reflexivity. }
    destruct (run_merge (r, d) q) as [r1 d1]. simpl in Hd.
    destruct Hs as (F1 & F2 & F3 & F4 & F5 & F6 & F7 & F8).
    specialize (IH r1 d1).
    destruct (fold_left run_merge qs (r1, d1)) as [r' d'].
    destruct IH as (G1 & G2 & G3 & G4 & G5 & G6 & G7 & G8).
    change (q :: qs) with ([q] ++ qs).
    unfold succ_durs, succ_rows in *. rewrite !flat_map_app, !fold_left_app.
    rewrite G1, F1, G2, F2, G3, F3, G5, F5, G6, F6, G7, F7, G8, Hd, <- app_assoc.
    repeat split.
    + rewrite G4. destruct qs as [|q2 qs]; [exact F4|]. rewrite F8. simpl. exact F4.
    + simpl map. rewrite last_cons. reflexivity.
Qed.

Lemma run_finalize_totals (r : QueryResult) (d : list Z) :
  let r' := run_finalize (r, d) in
  TotalDuration r' = TotalDuration r /\ RowsAffected r' = RowsAffected r /\
  MaxDuration r' = MaxDuration r /\ MinDuration r' = MinDuration r /\
  FirstExecutedAt r' = FirstExecutedAt r /\ LastExecutedAt r' = LastExecutedAt r /\
  SuccessfulExecutions r' = SuccessfulExecutions r /\
  AvgDuration r' = (if SuccessfulExecutions r >? 0
                    then dur_div (TotalDuration r) (SuccessfulExecutions r) else AvgDuration r) /\
  Percentile95 r' = match d with
                    | [] => Percentile95 r
                    | _ => st_P95 (CalculateStats d)
                    end.
Proof.
  unfold run_finalize. destruct (SuccessfulExecutions r >? 0), d; cbn; repeat split.
Qed.

(** One merge of [ExecuteBatch], on the accumulated fields. *)
Lemma batch_merge_step_totals (r : QueryResult) (e : QueryExecution) :
  let r1 := batch_merge r e in
  TotalDuration r1 = fold_left dur_add (batch_succ_durs [e]) (TotalDuration r) /\
  RowsAffected r1 = fold_left (fun a x => wrap64 (a + x)) (batch_succ_rows [e]) (RowsAffected r) /\
  MaxDuration r1 = fold_left Z.max (batch_succ_durs [e]) (MaxDuration r) /\
  FirstExecutedAt r1 = (if Nat.eqb (length (Executions r)) 0 then ex_StartTime e else FirstExecutedAt r) /\
  LastExecutedAt r1 = ex_StartTime e /\
  Percentile95 r1 = Percentile95 r /\ AvgDuration r1 = AvgDuration r.
Proof.
  unfold batch_merge, batch_succ_durs, batch_succ_rows, is_success. simpl filter.
  destruct (ex_Error e) as [m|]; destruct_ifs; cbn -[firstn] in *;
    repeat split; try lia; merge_arith.
  all: try (rewrite ?Heqb; reflexivity).
Qed.

Lemma batch_merge_fold_totals (es : list QueryExecution) (r : QueryResult) :
  let r' := fold_left batch_merge es r in
  TotalDuration r' = fold_left dur_add (batch_succ_durs es) (TotalDuration r) /\
  RowsAffected r' = fold_left (fun a x => wrap64 (a + x)) (batch_succ_rows es) (RowsAffected r) /\
  MaxDuration r' = fold_left Z.max (batch_succ_durs es) (MaxDuration r) /\
  FirstExecutedAt r' = match es with
                       | [] => FirstExecutedAt r
                       | e :: _ => if Nat.eqb (length (Executions r)) 0 then ex_StartTime e
                                   else FirstExecutedAt r
                       end /\
  LastExecutedAt r' = last (map ex_StartTime es) (LastExecutedAt r) /\
  Percentile95 r' = Percentile95 r /\ AvgDuration r' = AvgDuration r.
Proof.
  revert r. induction es as [|e es IH]; intros r.
  - cbn. repeat split.
  - cbn [fold_left].
    destruct (batch_merge_step_totals r e) as (F1 & F2 & F3 & F4 & F5 & F6 & F7).
    destruct (IH (batch_merge r e)) as (G1 & G2 & G3 & G4 & G5 & G6 & G7).
    change (e :: es) with ([e] ++ es).
    unfold batch_succ_durs, batch_succ_rows in *.
    rewrite !filter_app, !map_app, !fold_left_app.
    rewrite G1, F1, G2, F2, G3, F3, G5, F5, G6, F6, G7, F7.
    repeat split.
    + rewrite G4. destruct es as [|e2 es]; [exact F4|].
      assert (Hx : Executions (batch_merge r e) = Executions r ++ [e]).
      { unfold batch_merge. destruct (ex_Error e); destruct_ifs; reflexivity. }
      rewrite Hx, length_app. simpl. rewrite Nat.add_1_r. exact F4.
    + cbn [map app]. rewrite last_cons. reflexivity.
Qed.

Lemma batch_finalize_totals (r : QueryResult) :
  let r' := batch_finalize r in
  TotalDuration r' = TotalDuration r /\ RowsAffected r' = RowsAffected r /\
  MaxDuration r' = MaxDuration r /\ MinDuration r' = MinDuration r /\
  FirstExecutedAt r' = FirstExecutedAt r /\ LastExecutedAt r' = LastExecutedAt r /\
  SuccessfulExecutions r' = SuccessfulExecutions r /\
  AvgDuration r' = (if SuccessfulExecutions r >? 0
                    then dur_div (TotalDuration r) (SuccessfulExecutions r) else AvgDuration r) /\
  Percentile95 r' = (if SuccessfulExecutions r >? 0 then
                       match map ex_Duration (filter is_success (Executions r)) with
                       | [] => Percentile95 r
                       | d => st_P95 (CalculateStats d)
                       end
                     else Percentile95 r).
Proof.
  unfold batch_finalize. destruct (SuccessfulExecutions r >? 0); [|repeat split].
  destruct (map ex_Duration _); cbn; repeat split.
Qed.

Lemma fold_rows_wrap (l : list Z) :
  fold_left (fun acc x => wrap64 (acc + x)) l 0 = wrap64 (fold_right Z.add 0 l).
Proof. change 0 with (wrap64 0) at 1. rewrite fold_wrap_add. reflexivity. Qed.

Lemma run_query_totals (name : string) (qs : list queryResult) :
  let r := run_query name qs in
  TotalDuration r = wrap64 (fold_right Z.add 0 (succ_durs qs)) /\
  RowsAffected r = wrap64 (fold_right Z.add 0 (succ_rows qs)) /\
  MaxDuration r = fold_left Z.max (succ_durs qs) 0 /\
  FirstExecutedAt r = hd 0 (map q_startTime qs) /\
  LastExecutedAt r = last (map q_startTime qs) 0 /\
  AvgDuration r = (if SuccessfulExecutions r >? 0
                   then dur_div (TotalDuration r) (SuccessfulExecutions r) else 0) /\
  Percentile95 r = match succ_durs qs with
                   | [] => 0
                   | d => st_P95 (CalculateStats d)
                   end.
Proof.
  unfold run_query.
  pose proof (run_merge_fold_totals qs (init_result name) []) as H.
  destruct (fold_left run_merge qs (init_result name, [])) as [r' d'].
  destruct H as (G1 & G2 & G3 & G4 & G5 & G6 & G7 & G8).
  destruct (run_finalize_totals r' d') as (F1 & F2 & F3 & F4 & F5 & F6 & F7 & F8 & F9).
  cbn zeta. rewrite F1, F2, F3, F5, F6, F7, F8, F9, G1, G2, G3, G4, G5, G6, G7, G8.
  cbn [TotalDuration RowsAffected MaxDuration FirstExecutedAt LastExecutedAt
       Percentile95 AvgDuration init_result app].
  rewrite fold_dur_add_wrap, fold_rows_wrap.
  repeat split.
  - destruct qs; reflexivity.
  - destruct (succ_durs qs); reflexivity.
Qed.

Lemma batch_merge_fold_stats (es : list QueryExecution) (r : QueryResult) :
  let r' := fold_left batch_merge es r in
  MedianDuration r' = MedianDuration r /\ Percentile99 r' = Percentile99 r /\
  StdDevDuration r' = StdDevDuration r.
Proof.
  revert r. induction es as [|e es IH]; intros r; [repeat split|].
  cbn [fold_left]. destruct (IH (batch_merge r e)) as (G1 & G2 & G3).
  cbn zeta. rewrite G1, G2, G3.
  unfold batch_merge. destruct (ex_Error e); destruct_ifs; cbn; repeat split.
Qed.

Lemma batch_query_totals (name : string) (es : list QueryExecution) :
  let r := batch_query name es in
  TotalDuration r = wrap64 (fold_right Z.add 0 (batch_succ_durs es)) /\
  RowsAffected r = wrap64 (fold_right Z.add 0 (batch_succ_rows es)) /\
  MaxDuration r = fold_left Z.max (batch_succ_durs es) 0 /\
  FirstExecutedAt r = hd 0 (map ex_StartTime es) /\
  LastExecutedAt r = last (map ex_StartTime es) 0 /\
  AvgDuration r = (if SuccessfulExecutions r >? 0
                   then dur_div (TotalDuration r) (SuccessfulExecutions r) else 0) /\
  (Percentile95 r, Percentile99 r, MedianDuration r, StdDevDuration r) =
    match batch_succ_durs es with
    | [] => (0, 0, 0, 0)
    | d => let st := CalculateStats d in (st_P95 st, st_P99 st, st_Median st, st_StdDev st)
    end.
Proof.
  unfold batch_query.
  destruct (batch_merge_fold es (init_result name) ltac:(simpl; lia)) as (H1 & H2 & _).
  destruct (batch_merge_fold_totals es (init_result name)) as (G1 & G2 & G3 & G4 & G5 & G6 & G7).
  destruct (batch_merge_fold_stats es (init_result name)) as (S1 & S2 & S3).
  set (r' := fold_left batch_merge es (init_result name)) in *.
  cbn [Executions SuccessfulExecutions init_result app] in H1, H2.
  cbn [TotalDuration RowsAffected MaxDuration FirstExecutedAt LastExecutedAt
       Percentile95 Percentile99 MedianDuration StdDevDuration AvgDuration init_result] in *.
  cbv zeta. unfold batch_finalize. cbn [Executions set_AvgDuration]. rewrite H1. fold (batch_succ_durs es).
  rewrite fold_dur_add_wrap in G1. rewrite fold_rows_wrap in G2.

  destruct (SuccessfulExecutions r' >? 0) eqn:E.
  - destruct (batch_succ_durs es) as [|d ds] eqn:Ed; cbn;
      rewrite ?E, ?G1, ?G2, ?G3, ?G4, ?G5, ?G6, ?G7, ?S1, ?S2, ?S3;
      repeat split; try (destruct es; reflexivity).
  - rewrite H2 in E. destruct (batch_succ_durs es); [|simpl in E; discriminate].
    rewrite G1, G2, G3, G4, G5, G7, S1, S2, S3, G6, H2.
    repeat split; try (destruct es; reflexivity).
Qed.

Lemma fold_max_bounds (l : list Z) (h : Z) :
  h <= fold_left Z.max l h /\ Forall (fun d => d <= fold_left Z.max l h) l /\
  In (fold_left Z.max l h) (h :: l).
Proof.
  revert h. induction l as [|x l IH]; intros h; simpl.
  - split; [lia|split; [constructor|left; reflexivity]].
  - destruct (IH (Z.max h x)) as (H1 & H2 & H3). split; [lia|split].
    + constructor; [lia|exact H2].
    + destruct H3 as [H3|H3]; [|right; right; exact H3].
      rewrite <- H3.
      destruct (Z.max_spec h x) as [[_ E]|[_ E]]; rewrite E;
        [right; left; reflexivity|left; reflexivity].
Qed.

Lemma max_spec_holds (ds : list Z) : max_spec ds (fold_left Z.max ds 0).
Proof.
  destruct (fold_max_bounds ds 0) as (H1 & H2 & H3).
  split; [exact H1|split; [exact H2|]].
  destruct H3 as [H3|H3]; [left; auto|right; exact H3].
Qed.

Lemma avg_between_holds (ds : list Z) (se total mn mx avg : Z) :
  ds <> [] -> Forall (fun d => 0 <= d) ds -> fold_right Z.add 0 ds < two63 ->
  se = Z.of_nat (length ds) -> total = wrap64 (fold_right Z.add 0 ds) ->
  avg = (if se >? 0 then dur_div total se else 0) ->
  mn = fold_left Z.min ds Hour -> mx = fold_left Z.max ds 0 ->
  avg = fold_right Z.add 0 ds / Z.of_nat (length ds) /\ mn <= avg <= mx.
Proof.
  intros Hne Hnn Hs Hse Ht Ha Hmn Hmx.
  assert (Hn : 0 < Z.of_nat (length ds)) by (destruct ds; [contradiction|simpl; lia]).
  pose proof (sum_nonneg ds Hnn) as Hs0.
  rewrite wrap64_small in Ht by (unfold two63 in *; lia).
  assert (Havg : avg = fold_right Z.add 0 ds / Z.of_nat (length ds)).
  { rewrite Ha, Hse. destruct (Z.of_nat (length ds) >? 0) eqn:E; [|rewrite Z.gtb_ltb, Z.ltb_ge in E; lia].
    unfold dur_div. rewrite Ht, Z.quot_div_nonneg by lia.
    apply wrap64_small. split.
    - pose proof (Z.div_pos (fold_right Z.add 0 ds) (Z.of_nat (length ds))). unfold two63 in *; lia.
    - apply Z.le_lt_trans with (fold_right Z.add 0 ds); [|exact Hs].
      apply Z.div_le_upper_bound; [lia|nia]. }
  split; [exact Havg|].
  destruct (fold_min_bounds ds Hour) as (_ & Hmin & _).
  destruct (fold_max_bounds ds 0) as (_ & Hmax & _).
  rewrite <- Hmn in Hmin. rewrite <- Hmx in Hmax.
  assert (Hlo : Forall (fun d => mn <= d <= mx) ds).
  { rewrite Forall_forall in *. intros d Hd. split; auto. }
  destruct (sum_bounds mn mx ds Hlo) as [B1 B2].
  rewrite Havg. split.
  - apply Z.div_le_lower_bound; lia.
  - apply Z.div_le_upper_bound; lia.
Qed.

(** [Analyzer.Run] never sets the median, p99 or standard deviation. *)
Lemma run_query_unset_fields (name : string) (qs : list queryResult) :
  let r := run_query name qs in
  MedianDuration r = 0 /\ Percentile99 r = 0 /\ StdDevDuration r = 0.
Proof.
  intros r. unfold r, run_query.
  pose proof (run_fold_keeps_stats qs (init_result name) []) as H.
  destruct (fold_left run_merge qs (init_result name, [])) as [r' d'].
  simpl in H. destruct H as (H1 & H2 & H3).
  unfold run_finalize.
  destruct (SuccessfulExecutions r' >? 0), d'; cbn; auto.
Qed.

(** X5: the latency percentiles of both runners are the order statistics
    [CalculateStats] picks from the successful durations alone (failed
    executions never enter them); with no successful execution they stay
    0.  [Analyzer.Run] sets only [Percentile95]: its median, p99 and
    standard deviation are always 0. *)
Theorem runners_percentiles_from_successes :
  (forall (name : string) (qs : list queryResult),
     let r := run_query name qs in
     (Percentile95 r, Percentile99 r, MedianDuration r, StdDevDuration r) =
       (match succ_durs qs with [] => 0 | d => st_P95 (CalculateStats d) end, 0, 0, 0)) /\
  (forall (name : string) (es : list QueryExecution),
     let r := batch_query name es in
     (Percentile95 r, Percentile99 r, MedianDuration r, StdDevDuration r) =
       match batch_succ_durs es with
       | [] => (0, 0, 0, 0)
       | d => let st := CalculateStats d in (st_P95 st, st_P99 st, st_Median st, st_StdDev st)
       end).
Proof.
  split.
  - intros name qs r.
    destruct (run_query_totals name qs) as (_ & _ & _ & _ & _ & _ & H).
    destruct (run_query_unset_fields name qs) as (Hm & H99 & Hsd).
    unfold r. rewrite H, Hm, H99, Hsd. reflexivity.
  - intros name es. destruct (batch_query_totals name es) as (_ & _ & _ & _ & _ & _ & H). exact H.
Qed.

(** X6: [TotalDuration] and [RowsAffected] sum the durations and row
    counts of the successful executions only (rows counted by a failed
    execution are dropped), as int64 with wrap-around. *)
Theorem runners_totals_successes_only :
  (forall (name : string) (qs : list queryResult),
     let r := run_query name qs in
     TotalDuration r = wrap64 (fold_right Z.add 0 (succ_durs qs)) /\
     RowsAffected r = wrap64 (fold_right Z.add 0 (succ_rows qs))) /\
  (forall (name : string) (es : list QueryExecution),
     let r := batch_query name es in
     TotalDuration r = wrap64 (fold_right Z.add 0 (batch_succ_durs es)) /\
     RowsAffected r = wrap64 (fold_right Z.add 0 (batch_succ_rows es))).
Proof.
  split.
  - intros name qs. destruct (run_query_totals name qs) as (H1 & H2 & _). split; assumption.
  - intros name es. destruct (batch_query_totals name es) as (H1 & H2 & _). split; assumption.
Qed.

(** X7: [MaxDuration] starts at 0 and only successful executions raise
    it: it is never negative, bounds every successful duration, and is
    either 0 or one of them. *)
Theorem runners_max_duration :
  (forall (name : string) (qs : list queryResult),
     let r := run_query name qs in
     MaxDuration r = fold_left Z.max (succ_durs qs) 0 /\ max_spec (succ_durs qs) (MaxDuration r)) /\
  (forall (name : string) (es : list QueryExecution),
     let r := batch_query name es in
     MaxDuration r = fold_left Z.max (batch_succ_durs es) 0 /\
     max_spec (batch_succ_durs es) (MaxDuration r)).
Proof.
  split.
  - intros name qs. destruct (run_query_totals name qs) as (_ & _ & H & _).
    cbv zeta. rewrite H. split; [reflexivity|apply max_spec_holds].
  - intros name es. destruct (batch_query_totals name es) as (_ & _ & H & _).
    cbv zeta. rewrite H. split; [reflexivity|apply max_spec_holds].
Qed.

(** X8: when some execution succeeded, the durations are non-negative
    and their sum fits in an int64, [AvgDuration] is the floor of the
    mean successful duration and lies between [MinDuration] and
    [MaxDuration], for both runners. *)
Theorem runners_avg_between_min_max :
  (forall (name : string) (qs : list queryResult),
     succ_durs qs <> [] -> Forall (fun d => 0 <= d) (succ_durs qs) ->
     fold_right Z.add 0 (succ_durs qs) < two63 ->
     let r := run_query name qs in
     AvgDuration r = fold_right Z.add 0 (succ_durs qs) / Z.of_nat (length (succ_durs qs)) /\
     MinDuration r <= AvgDuration r <= MaxDuration r) /\
  (forall (name : string) (es : list QueryExecution),
     batch_succ_durs es <> [] -> Forall (fun d => 0 <= d) (batch_succ_durs es) ->
     fold_right Z.add 0 (batch_succ_durs es) < two63 ->
     let r := batch_query name es in
     AvgDuration r = fold_right Z.add 0 (batch_succ_durs es) / Z.of_nat (length (batch_succ_durs es)) /\
     MinDuration r <= AvgDuration r <= MaxDuration r).
Proof.
  split.
  - intros name qs Hne Hnn Hs r.
    destruct (run_query_totals name qs) as (T1 & _ & T3 & _ & _ & T6 & _).
    destruct (run_query_fields name qs) as (_ & F2 & _ & _ & F5).
    fold r in T1, T3, T6, F2, F5.
    eapply avg_between_holds; eauto.
  - intros name es Hne Hnn Hs r.
    destruct (batch_query_totals name es) as (T1 & _ & T3 & _ & _ & T6 & _).
    destruct (batch_query_fields name es) as (_ & F2 & _ & _ & F5).
    fold r in T1, T3, T6, F2, F5.
    eapply avg_between_holds; eauto.
Qed.

(** X9: [FirstExecutedAt] and [LastExecutedAt] are the start times of the
    first and the last merged execution (merge order, not time order),
    and 0 for a query with no execution. *)
Theorem runners_first_last_timestamps :
  (forall (name : string) (qs : list queryResult),
     let r := run_query name qs in
     FirstExecutedAt r = hd 0 (map q_startTime qs) /\
     LastExecutedAt r = last (map q_startTime qs) 0) /\
  (forall (name : string) (es : list QueryExecution),
     let r := batch_query name es in
     FirstExecutedAt r = hd 0 (map ex_StartTime es) /\
     LastExecutedAt r = last (map ex_StartTime es) 0).
Proof.
  split.
  - intros name qs. destruct (run_query_totals name qs) as (_ & _ & _ & H1 & H2 & _). split; assumption.
  - intros name es. destruct (batch_query_totals name es) as (_ & _ & _ & H1 & H2 & _). split; assumption.
Qed.

Lemma runners_avg_between_min_max_witness :
  let qs := [mkqueryResult 10 1 None 0; mkqueryResult 5 0 (Some "x"%string) 1; mkqueryResult 21 2 None 2] in
  let es := [mkQueryExecution 0 10 1 None EmptyString; mkQueryExecution 1 21 2 None EmptyString] in
  (AvgDuration (run_query "Q" qs) = 15 /\
   MinDuration (run_query "Q" qs) <= AvgDuration (run_query "Q" qs) <= MaxDuration (run_query "Q" qs)) /\
  (AvgDuration (batch_query "Q" es) = 15 /\
   MinDuration (batch_query "Q" es) <= AvgDuration (batch_query "Q" es) <= MaxDuration (batch_query "Q" es)).
Proof.
  cbv zeta. split.
  - destruct (proj1 runners_avg_between_min_max "Q"%string
      [mkqueryResult 10 1 None 0; mkqueryResult 5 0 (Some "x"%string) 1; mkqueryResult 21 2 None 2]
      ltac:(discriminate) ltac:(vm_compute; repeat constructor; discriminate)
      ltac:(vm_compute; reflexivity)) as [H1 H2].
    split; [rewrite H1; vm_compute; reflexivity|exact H2].
  - destruct (proj2 runners_avg_between_min_max "Q"%string
      [mkQueryExecution 0 10 1 None EmptyString; mkQueryExecution 1 21 2 None EmptyString]
      ltac:(discriminate) ltac:(vm_compute; repeat constructor; discriminate)
      ltac:(vm_compute; reflexivity)) as [H1 H2].
    split; [rewrite H1; vm_compute; reflexivity|exact H2].
Defined.

Lemma sumZ_app (l1 l2 : list Z) : sumZ (l1 ++ l2) = sumZ l1 + sumZ l2.
Proof. unfold sumZ. induction l1; simpl; lia. Qed.

Lemma summary_fold (l : list QueryResult) (s : ResultSummary) (t m : Z) :
  let '(s', t', m') := fold_left summary_step l (s, t, m) in
  sm_TotalQueries s' = sm_TotalQueries s /\
  sm_SuccessfulQueries s' = sm_SuccessfulQueries s + Z.of_nat (length (filter (fun r => Errors r =? 0) l)) /\
  sm_FailedQueries s' = sm_FailedQueries s + Z.of_nat (length (filter (fun r => negb (Errors r =? 0)) l)) /\
  sm_TotalExecutions s' = sm_TotalExecutions s + sumZ (map (fun r => Z.of_nat (length (Executions r))) l) /\
  sm_SuccessfulExecutions s' = sm_SuccessfulExecutions s + sumZ (map SuccessfulExecutions l) /\
  sm_FailedExecutions s' = sm_FailedExecutions s + sumZ (map Errors l) /\
  sm_AvgDurationMs s' = sm_AvgDurationMs s /\ sm_MaxDurationMs s' = sm_MaxDurationMs s /\
  sm_TotalRowsReturned s' = fold_left (fun a x => wrap64 (a + x)) (map RowsAffected l) (sm_TotalRowsReturned s) /\
  t' = fold_left dur_add (map AvgDuration l) t /\
  m' = fold_left Z.max (map MaxDuration l) m.
Proof.
  revert s t m. induction l as [|r l IH]; intros s t m.
  - cbn. repeat split; lia.
  - cbn [fold_left map filter].
    specialize (IH (let '(s1, _, _) := summary_step (s, t, m) r in s1)
                   (dur_add t (AvgDuration r))
                   (if MaxDuration r >? m then MaxDuration r else m)).
    replace (if MaxDuration r >? m then MaxDuration r else m) with (Z.max m (MaxDuration r)) in IH
      by (destruct (MaxDuration r >? m) eqn:E; [rewrite Z.gtb_ltb, Z.ltb_lt in E|rewrite Z.gtb_ltb, Z.ltb_ge in E]; lia).
    replace (summary_step (s, t, m) r) with
      ((let '(s1, _, _) := summary_step (s, t, m) r in s1), dur_add t (AvgDuration r), Z.max m (MaxDuration r))
      by (unfold summary_step; f_equal; f_equal;
          destruct (MaxDuration r >? m) eqn:E; [rewrite Z.gtb_ltb, Z.ltb_lt in E|rewrite Z.gtb_ltb, Z.ltb_ge in E]; lia).
    destruct (fold_left summary_step l _) as [[s' t'] m'].
    destruct IH as (H1 & H2 & H3 & H4 & H5 & H6 & H7 & H8 & H9 & H10 & H11).
    cbn in H1, H2, H3, H4, H5, H6, H7, H8, H9.
    rewrite H1, H2, H3, H4, H5, H6, H7, H8, H9, H10, H11.
    unfold sumZ. cbn [fold_right].
    destruct (Errors r =? 0); cbn [negb length]; rewrite ?Nat2Z.inj_succ;
      repeat split; lia.
Qed.

Lemma calculateSummary_fields (results : list QueryResult) :
  let s := calculateSummary results in
  let n := Z.of_nat (length results) in
  sm_TotalQueries s = n /\
  sm_SuccessfulQueries s = Z.of_nat (length (filter (fun r => Errors r =? 0) results)) /\
  sm_FailedQueries s = Z.of_nat (length (filter (fun r => negb (Errors r =? 0)) results)) /\
  sm_TotalExecutions s = sumZ (map (fun r => Z.of_nat (length (Executions r))) results) /\
  sm_SuccessfulExecutions s = sumZ (map SuccessfulExecutions results) /\
  sm_FailedExecutions s = sumZ (map Errors results) /\
  sm_TotalRowsReturned s = wrap64 (sumZ (map RowsAffected results)) /\
  sm_AvgDurationMs s = (if n >? 0 then to_ms (dur_div (wrap64 (sumZ (map AvgDuration results))) n) else 0%Q) /\
  sm_MaxDurationMs s = (if n >? 0 then to_ms (fold_left Z.max (map MaxDuration results) 0) else 0%Q).
Proof.
  unfold calculateSummary.
  pose proof (summary_fold results (mkResultSummary (Z.of_nat (length results)) 0 0 0 0 0 0 0 0) 0 0) as H.
  destruct (fold_left summary_step results _) as [[s t] m].
  destruct H as (H1 & H2 & H3 & H4 & H5 & H6 & H7 & H8 & H9 & H10 & H11).
  cbn [sm_TotalQueries sm_SuccessfulQueries sm_FailedQueries sm_TotalExecutions
       sm_SuccessfulExecutions sm_FailedExecutions sm_AvgDurationMs sm_MaxDurationMs
       sm_TotalRowsReturned] in *.
  rewrite fold_rows_wrap in H9. rewrite fold_dur_add_wrap in H10.
  rewrite H1. cbv zeta.
  destruct (Z.of_nat (length results) >? 0); cbn;
    rewrite ?H1, ?H2, ?H3, ?H4, ?H5, ?H6, ?H7, ?H8, ?H9, ?H10, ?H11; repeat split; lia.
Qed.

Lemma filter_split_length {A} (f : A -> bool) (l : list A) :
  (length (filter f l) + length (filter (fun x => negb (f x)) l) = length l)%nat.
Proof. induction l as [|x l IH]; [reflexivity|]. simpl. destruct (f x); simpl; lia. Qed.

Lemma to_ms_mono (a b : Z) : a <= b -> (to_ms a <= to_ms b)%Q.
Proof.
  intros Hab. pose proof (Z.quot_le_mono a b 1000 ltac:(lia) Hab).
  unfold to_ms, Microseconds, Qdiv, Qmult, Qle, inject_Z. simpl. nia.
Qed.

(** X10: the query and execution counts of the run summary: one query
    per result, split by whether its error count is zero; the execution
    counters are the sums over the queries; and on the output of either
    runner the successful and failed executions add up to the total. *)
Theorem calculateSummary_counts :
  (forall results : list QueryResult,
     let s := calculateSummary results in
     sm_TotalQueries s = Z.of_nat (length results) /\
     sm_SuccessfulQueries s = Z.of_nat (length (filter (fun r => Errors r =? 0) results)) /\
     sm_SuccessfulQueries s + sm_FailedQueries s = sm_TotalQueries s /\
     sm_TotalExecutions s = sumZ (map (fun r => Z.of_nat (length (Executions r))) results) /\
     sm_SuccessfulExecutions s = sumZ (map SuccessfulExecutions results) /\
     sm_FailedExecutions s = sumZ (map Errors results) /\
     sm_TotalRowsReturned s = wrap64 (sumZ (map RowsAffected results))) /\
  (forall queries : list (string * list queryResult),
     let s := calculateSummary (Run queries) in
     sm_SuccessfulExecutions s + sm_FailedExecutions s = sm_TotalExecutions s) /\
  (forall queries : list (string * list QueryExecution),
     let s := calculateSummary (ExecuteBatch queries) in
     sm_SuccessfulExecutions s + sm_FailedExecutions s = sm_TotalExecutions s).
Proof.
  split; [|split].
  - intros results s.
    destruct (calculateSummary_fields results) as (F1 & F2 & F3 & F4 & F5 & F6 & F7 & _).
    fold s in F1, F2, F3, F4, F5, F6, F7.
    pose proof (filter_split_length (fun r => Errors r =? 0) results).
    repeat split; try assumption. lia.
  - intros queries s.
    destruct (calculateSummary_fields (Run queries)) as (_ & _ & _ & F4 & F5 & F6 & _).
    fold s in F4, F5, F6. rewrite F4, F5, F6. unfold Run. clear.
    induction queries as [|[name qs] queries IH]; [reflexivity|].
    cbn [map]. unfold sumZ in *. cbn [fold_right].
    destruct (run_query_fields name qs) as (G1 & G2 & G3 & _).
    pose proof (succ_err_length qs). rewrite G1, G2, G3. lia.
  - intros queries s.
    destruct (calculateSummary_fields (ExecuteBatch queries)) as (_ & _ & _ & F4 & F5 & F6 & _).
    fold s in F4, F5, F6. rewrite F4, F5, F6. unfold ExecuteBatch. clear.
    induction queries as [|[name es] queries IH]; [reflexivity|].
    cbn [map]. unfold sumZ in *. cbn [fold_right].
    destruct (batch_query_fields name es) as (G1 & G2 & G3 & _).
    pose proof (batch_succ_err_length es). rewrite G1, G2, G3. lia.
Qed.

(** X11: the summary's duration fields: both are 0 for an empty run;
    otherwise the maximum, in milliseconds, is that of the largest
    per-query [MaxDuration] (never below any query's own maximum), and the
    average is the int64 sum of the per-query averages divided by the
    number of queries. *)
Theorem calculateSummary_durations (results : list QueryResult) :
  let s := calculateSummary results in
  (results = [] -> sm_AvgDurationMs s = 0%Q /\ sm_MaxDurationMs s = 0%Q) /\
  (results <> [] ->
     sm_MaxDurationMs s = to_ms (fold_left Z.max (map MaxDuration results) 0) /\
     Forall (fun r => (to_ms (MaxDuration r) <= sm_MaxDurationMs s)%Q) results /\
     sm_AvgDurationMs s =
       to_ms (dur_div (wrap64 (sumZ (map AvgDuration results))) (Z.of_nat (length results)))).
Proof.
  intros s.
  destruct (calculateSummary_fields results) as (_ & _ & _ & _ & _ & _ & _ & F8 & F9).
  fold s in F8, F9. split.
  - intros ->. rewrite F8, F9. split; reflexivity.
  - intros Hne. assert (E : (Z.of_nat (length results) >? 0) = true).
    { destruct results; [contradiction|reflexivity]. }
    rewrite E in F8, F9. split; [exact F9|split; [|exact F8]].
    rewrite F9. apply Forall_forall. intros r Hr. apply to_ms_mono.
    destruct (fold_max_bounds (map MaxDuration results) 0) as (_ & Hm & _).
    rewrite Forall_forall in Hm. apply Hm. apply in_map. exact Hr.
Qed.

Lemma calculateSummary_durations_witness :
  let rs := [init_result "A"; set_MaxDuration (init_result "B") 3000000] in
  (sm_MaxDurationMs (calculateSummary rs) == 3)%Q.
Proof.
  cbv zeta.
  destruct (proj2 (calculateSummary_durations
                     [init_result "A"; set_MaxDuration (init_result "B") 3000000]) ltac:(discriminate))
    as (H & _ & _).
  rewrite H. vm_compute. reflexivity.
Defined.

Lemma map_get_int_set (m : list (string * Z)) (k k' : string) (v : Z) :
  map_get_int (map_set m k v) k' = if String.eqb k' k then v else map_get_int m k'.
Proof.
  unfold map_get_int, map_lookup. induction m as [|[k0 v0] m IH]; simpl.
  - destruct (String.eqb k' k); reflexivity.
  - destruct (String.eqb_spec k k0) as [->|Hne]; simpl.
    + destruct (String.eqb k' k0); reflexivity.
    + destruct (String.eqb_spec k' k0) as [->|Hne']; simpl.
      * destruct (String.eqb_spec k0 k); [congruence|reflexivity].
      * exact IH.
Qed.

Lemma map_set_keys (m : list (string * Z)) (k : string) (v : Z) :
  map fst (map_set m k v) = if existsb (String.eqb k) (map fst m) then map fst m else map fst m ++ [k].
Proof.
  induction m as [|[k0 v0] m IH]; simpl; [reflexivity|].
  destruct (String.eqb_spec k k0) as [->|Hne]; simpl; [reflexivity|].
  rewrite IH. destruct (existsb _ _); reflexivity.
Qed.

Lemma existsb_eqb_In (k : string) (l : list string) : existsb (String.eqb k) l = true <-> In k l.
Proof.
  rewrite existsb_exists. split.
  - intros (x & Hx & E). apply String.eqb_eq in E. subst. exact Hx.
  - intros H. exists k. split; [exact H|apply String.eqb_refl].
Qed.

Lemma map_total_set (m : list (string * Z)) (k : string) (v : Z) :
  map_total (map_set m k v) = map_total m - map_get_int m k + v.
Proof.
  unfold map_get_int, map_lookup, map_total.
  induction m as [|[k0 v0] m IH]; simpl; [lia|].
  destruct (String.eqb_spec k k0) as [->|Hne]; simpl; [lia|]. rewrite IH. lia.
Qed.

Lemma map_get_int_in (m : list (string * Z)) (k : string) :
  In k (map fst m) -> exists v, In (k, v) m /\ map_get_int m k = v.
Proof.
  unfold map_get_int, map_lookup. induction m as [|[k0 v0] m IH]; simpl; [tauto|].
  intros Hk. destruct (String.eqb_spec k k0) as [->|Hne].
  - exists v0. split; [left; reflexivity|reflexivity].
  - destruct Hk as [Hk|Hk]; [congruence|].
    destruct (IH Hk) as (v & Hv & E). exists v. split; [right; exact Hv|exact E].
Qed.

Lemma ClassifyErrors_flat (results : list QueryResult) :
  ClassifyErrors results = fold_left classify_step (flat_map ErrorDetails results) [].
Proof.
  unfold ClassifyErrors. generalize (@nil (string * Z)) as m.
  induction results as [|r rs IH]; intros m; [reflexivity|].
  simpl. rewrite fold_left_app. apply IH.
Qed.

(** The invariant of the classification loop. *)
Lemma classify_fold (msgs : list string) (m : list (string * Z)) :
  (forall k, map_get_int (fold_left classify_step msgs m) k =
             map_get_int m k + Z.of_nat (length (filter (fun e => String.eqb (classifyErrorMessage e) k) msgs))) /\
  map_total (fold_left classify_step msgs m) = map_total m + Z.of_nat (length msgs) /\
  (NoDup (map fst m) -> NoDup (map fst (fold_left classify_step msgs m))) /\
  (forall k, In k (map fst (fold_left classify_step msgs m)) ->
             In k (map fst m) \/ In k (map classifyErrorMessage msgs)).
Proof.
  revert m. induction msgs as [|e msgs IH]; intros m.
  - simpl. split; [intros; lia|split; [lia|split; [auto|auto]]].
  - simpl fold_left. destruct (IH (classify_step m e)) as (H1 & H2 & H3 & H4).
    split; [|split; [|split]].
    + intros k. rewrite H1. unfold classify_step. rewrite map_get_int_set.
      simpl filter. destruct (String.eqb_spec k (classifyErrorMessage e)) as [->|Hne].
      * rewrite String.eqb_refl. simpl length. lia.
      * destruct (String.eqb_spec (classifyErrorMessage e) k); [congruence|]. lia.
    + rewrite H2. unfold classify_step. rewrite map_total_set. simpl length. lia.
    + intros Hnd. apply H3. unfold classify_step. rewrite map_set_keys.
      destruct (existsb _ _) eqn:E; [exact Hnd|].
      apply NoDup_app; [exact Hnd|constructor; [simpl; tauto|constructor]|].
      intros x Hx [Hy|[]]. subst. apply (proj2 (existsb_eqb_In _ _)) in Hx. congruence.
    + intros k Hk. destruct (H4 k Hk) as [Hm|Hm]; [|right; right; exact Hm].
      unfold classify_step in Hm. rewrite map_set_keys in Hm.
      destruct (existsb _ _); [left; exact Hm|].
      apply in_app_or in Hm. destruct Hm as [Hm|[Hm|[]]]; [left; exact Hm|right; left; exact Hm].
Qed.

Lemma classifyErrorMessage_class (e : string) : In (classifyErrorMessage e) error_classes.
Proof.
  unfold classifyErrorMessage, error_classes.
  repeat match goal with |- context [if ?c then _ else _] => destruct c end; simpl; tauto.
Qed.

(** X12: [ClassifyErrors] counts the recorded error details by class:
    looking up any key (the zero value for a missing one) gives the number
    of details of that class; the keys are distinct, each is one of the
    eight classes of [classifyErrorMessage] with a positive count, and the
    counts add up to the number of details. *)
Theorem ClassifyErrors_counts (results : list QueryResult) :
  let m := ClassifyErrors results in
  let details := flat_map ErrorDetails results in
  (forall k, map_get_int m k =
             Z.of_nat (length (filter (fun e => String.eqb (classifyErrorMessage e) k) details))) /\
  NoDup (map fst m) /\
  (forall k v, In (k, v) m -> In k error_classes /\ 0 < v) /\
  map_total m = Z.of_nat (length details).
Proof.
  intros m details. unfold m. rewrite ClassifyErrors_flat. fold details.
  destruct (classify_fold details []) as (H1 & H2 & H3 & H4).
  split; [|split; [|split]].
  - intros k. rewrite H1. reflexivity.
  - apply H3. constructor.
  - intros k v Hkv.
    assert (Hk : In k (map fst (fold_left classify_step details []))).
    { apply (in_map fst) in Hkv. exact Hkv. }
    destruct (H4 k Hk) as [[]|Hc].
    apply in_map_iff in Hc. destruct Hc as (e & He & Hin).
    split; [rewrite <- He; apply classifyErrorMessage_class|].
    assert (Hnd : NoDup (map fst (fold_left classify_step details []))) by (apply H3; constructor).
    destruct (map_get_int_in _ k Hk) as (v' & Hv' & Ev').
    assert (Hvv : v = v').
    { clear - Hnd Hkv Hv'. induction (fold_left classify_step details []) as [|[k0 v0] l IH]; [contradiction|].
      simpl in *. inversion Hnd as [|x y Hx Hl]. subst.
      destruct Hkv as [E1|E1], Hv' as [E2|E2].
      - congruence.
      - inversion E1; subst. exfalso. apply Hx. apply (in_map fst) in E2. exact E2.
      - inversion E2; subst. exfalso. apply Hx. apply (in_map fst) in E1. exact E1.
      - apply IH; assumption. }
    rewrite <- Hvv in Ev'. rewrite H1 in Ev'. simpl in Ev'.
    assert (Hpos : (0 < length (filter (fun e0 => String.eqb (classifyErrorMessage e0) k) details))%nat).
    { destruct (filter _ details) eqn:F; [|simpl; lia].
      exfalso. assert (Hf : In e (filter (fun e0 => String.eqb (classifyErrorMessage e0) k) details)).
      { apply filter_In. split; [exact Hin|]. rewrite He. apply String.eqb_refl. }
      rewrite F in Hf. contradiction. }
    lia.
  - rewrite H2. reflexivity.
Qed.

(** X13: on the results of [Analyzer.Run], the error classes count at
    most ten failures per query: the counts add up to the sum over the
    queries of [min 10] of their number of failed executions. *)
Theorem ClassifyErrors_Run_total (queries : list (string * list queryResult)) :
  map_total (ClassifyErrors (Run queries)) =
  sumZ (map (fun '(_, qs) => Z.of_nat (Nat.min 10 (length (err_msgs qs)))) queries).
Proof.
  rewrite ClassifyErrors_flat.
  destruct (classify_fold (flat_map ErrorDetails (Run queries)) []) as (_ & H2 & _).
  rewrite H2. change (map_total []) with 0. rewrite Z.add_0_l. unfold Run. clear H2.
  induction queries as [|[name qs] queries IH]; [reflexivity|].
  cbn [map flat_map]. rewrite length_app, Nat2Z.inj_add, IH.
  unfold sumZ. cbn [fold_right].
  destruct (run_query_fields name qs) as (_ & _ & _ & F4 & _).
  rewrite F4, length_firstn. reflexivity.
Qed.

Lemma map_lookup_set {V} (m : list (string * V)) (k k' : string) (v : V) :
  map_lookup (map_set m k v) k' = if String.eqb k' k then Some v else map_lookup m k'.
Proof.
  unfold map_lookup. induction m as [|[k0 v0] m IH]; simpl.
  - destruct (String.eqb k' k); reflexivity.
  - destruct (String.eqb_spec k k0) as [->|Hne]; simpl.
    + destruct (String.eqb k' k0); reflexivity.
    + destruct (String.eqb_spec k' k0) as [->|Hne']; simpl.
      * destruct (String.eqb_spec k0 k); [congruence|reflexivity].
      * exact IH.
Qed.

Lemma after_map_lookup (after : list QueryResult) (k : string) :
  map_lookup (after_map after) k = last_named k after.
Proof.
  unfold after_map, last_named.
  assert (G : forall m acc, map_lookup m k = acc ->
            map_lookup (fold_left (fun m q => map_set m (Name q) q) after m) k =
            fold_left (fun acc q => if String.eqb (Name q) k then Some q else acc) after acc).
  { induction after as [|q qs IH]; intros m acc H; [exact H|].
    simpl. apply IH. rewrite map_lookup_set, H.
    destruct (String.eqb_spec k (Name q)) as [->|Hne];
      [rewrite String.eqb_refl; reflexivity|].
    destruct (String.eqb_spec (Name q) k); [congruence|reflexivity]. }
  apply G. reflexivity.
Qed.

Lemma query_comparisons_last_named (before after : list QueryResult) :
  query_comparisons before after =
  flat_map (fun b => match last_named (Name b) after with
                     | Some a => [compare_query b a]
                     | None => []
                     end) before.
Proof.
  unfold query_comparisons. apply flat_map_ext. intros b. rewrite after_map_lookup. reflexivity.
Qed.

Lemma Sorted_firstn {A} (R : A -> A -> Prop) (n : nat) (l : list A) :
  Sorted R l -> Sorted R (firstn n l).
Proof.
  revert n. induction l as [|x l IH]; intros n Hs; [destruct n; constructor|].
  destruct n as [|n]; [constructor|]. simpl.
  inversion Hs as [|? ? Hl Hhd]; subst. constructor; [apply IH; exact Hl|].
  destruct l as [|y l]; [destruct n; constructor|]. destruct n as [|n]; [constructor|].
  simpl. inversion Hhd; subst. constructor. assumption.
Qed.

Lemma Sorted_map {A B} (R : A -> A -> Prop) (R' : B -> B -> Prop) (f : A -> B) (l : list A) :
  (forall x y, R x y -> R' (f x) (f y)) -> Sorted R l -> Sorted R' (map f l).
Proof.
  intros HR Hs. induction Hs as [|x l Hl IH Hhd]; simpl; constructor; [exact IH|].
  destruct Hhd; simpl; constructor. apply HR. assumption.
Qed.

Lemma StronglySorted_app_cross {A} (R : A -> A -> Prop) (l1 l2 : list A) :
  StronglySorted R (l1 ++ l2) -> forall x y, In x l1 -> In y l2 -> R x y.
Proof.
  induction l1 as [|a l1 IH]; intros Hs x y Hx Hy; [contradiction|].
  inversion Hs as [|? ? Hl Ha]; subst. destruct Hx as [->|Hx].
  - rewrite Forall_forall in Ha. apply Ha. apply in_or_app. right. exact Hy.
  - apply IH; assumption.
Qed.

(** X14: the per-query comparisons are an inner join on the query name:
    one entry per query of the before run whose name occurs in the after
    run, compared with the LAST after-run query of that name (a later
    duplicate overwrites an earlier one in [afterMap]); before-run queries
    missing from the after run, and after-run queries missing from the
    before run, are dropped. *)
Theorem comparisons_inner_join (before after : list QueryResult) (cs : list QueryComparison) :
  comparisons_sorted before after cs ->
  (forall c, In c cs <->
     exists b a, In b before /\ last_named (Name b) after = Some a /\ c = compare_query b a) /\
  length cs = length (filter (fun b => match last_named (Name b) after with
                                       | Some _ => true | None => false end) before).
Proof.
  intros [Hp _]. rewrite query_comparisons_last_named in Hp. split.
  - intros c. split.
    + intros Hc. apply (Permutation_in c (Permutation_sym Hp)) in Hc.
      apply in_flat_map in Hc. destruct Hc as (b & Hb & Hc).
      destruct (last_named (Name b) after) as [a|] eqn:E; [|contradiction].
      destruct Hc as [<-|[]]. exists b, a. auto.
    + intros (b & a & Hb & Ha & ->). apply (Permutation_in _ Hp).
      apply in_flat_map. exists b. split; [exact Hb|]. rewrite Ha. left. reflexivity.
  - rewrite <- (Permutation_length Hp). clear Hp. induction before as [|b bs IH]; [reflexivity|].
    simpl. rewrite length_app, IH. destruct (last_named (Name b) after); reflexivity.
Qed.

(** X15: the improvement of one comparison: 0 when the before average
    is not positive; otherwise it is positive exactly when the after
    average is smaller, and at most 100 when the after average is not
    negative. *)
Theorem compare_query_improvement (b a : QueryResult) :
  let c := compare_query b a in
  cmp_Name c = Name b /\ cmp_BeforeAvgMs c = to_ms (AvgDuration b) /\
  cmp_AfterAvgMs c = to_ms (AvgDuration a) /\
  ((cmp_BeforeAvgMs c <= 0)%Q -> cmp_ImprovementPercent c = 0%Q) /\
  ((0 < cmp_BeforeAvgMs c)%Q ->
     ((0 < cmp_ImprovementPercent c)%Q <-> (cmp_AfterAvgMs c < cmp_BeforeAvgMs c)%Q) /\
     ((0 <= cmp_AfterAvgMs c)%Q -> (cmp_ImprovementPercent c <= 100)%Q)).
Proof.
  unfold compare_query. cbn [cmp_Name cmp_BeforeAvgMs cmp_AfterAvgMs cmp_ImprovementPercent].
  set (B := to_ms (AvgDuration b)). set (A := to_ms (AvgDuration a)).
  split; [reflexivity|split; [reflexivity|split; [reflexivity|split]]].
  - intros HB. destruct (Qlt_le_dec 0 B) as [HB'|]; [|reflexivity].
    exfalso. apply (Qlt_irrefl 0). apply Qlt_le_trans with B; assumption.
  - intros HB. destruct (Qlt_le_dec 0 B) as [_|HB']; [|exfalso; apply (Qlt_irrefl 0); apply Qlt_le_trans with B; assumption].
    assert (Hnz : ~ B == 0) by (intros H; rewrite H in HB; apply (Qlt_irrefl 0); exact HB).
    assert (E : ((B - A) / B * inject_Z 100 == inject_Z 100 - A / B * inject_Z 100)%Q) by (field; exact Hnz).
    split.
    + split.
      * intros Hi. rewrite E in Hi.
        assert (H1 : (A / B * inject_Z 100 < inject_Z 100)%Q).
        { apply (Qplus_lt_r _ _ (- (A / B * inject_Z 100))). ring_simplify.
          ring_simplify in Hi. exact Hi. }
        assert (H2 : (A / B < 1)%Q).
        { apply (Qmult_lt_r _ _ (inject_Z 100)); [reflexivity|]. rewrite Qmult_1_l. exact H1. }
        apply (Qmult_lt_r _ _ B) in H2; [|exact HB].
        assert (E2 : (A / B * B == A)%Q) by (field; exact Hnz).
        rewrite E2, Qmult_1_l in H2. exact H2.
      * intros Hlt. apply Qmult_lt_0_compat; [|reflexivity].
        apply Qlt_shift_div_l; [exact HB|]. ring_simplify.
        apply (Qplus_lt_r _ _ A). ring_simplify. exact Hlt.
    + intros HA. rewrite E.
      assert (H0 : (0 <= A / B)%Q) by (apply Qle_shift_div_l; [exact HB|ring_simplify; exact HA]).
      assert (H1 : (0 <= A / B * inject_Z 100)%Q) by (apply Qmult_le_0_compat; [exact H0|discriminate]).
      apply Qle_minus_iff.
      setoid_replace (100 + - (inject_Z 100 - A / B * inject_Z 100))%Q
        with (A / B * inject_Z 100)%Q by ring.
      exact H1.
Qed.

(** X16: the top queries of the summary report: absent (JSON [null]) for
    a run without results; otherwise the first [min 5 n] queries of the
    sorted copy, each with an average at least that of every query left
    out, listed by non-increasing displayed average. *)
Theorem summary_top_queries_spec (results s : list QueryResult) :
  sorted_by_avg_desc results s ->
  (results = [] -> summary_top_queries results s = None) /\
  (results <> [] ->
     exists tq, summary_top_queries results s = Some tq /\
       length tq = Nat.min 5 (length results) /\
       map qs_Name tq = map Name (firstn 5 s) /\
       (forall q1 q2, In q1 (firstn 5 s) -> In q2 (skipn 5 s) -> AvgDuration q2 <= AvgDuration q1) /\
       Sorted (fun x y => (qs_AvgDuration y <= qs_AvgDuration x)%Q) tq).
Proof.
  intros [Hp Hs]. split.
  - intros ->. reflexivity.
  - intros Hne. unfold summary_top_queries.
    destruct results as [|r rs]; [contradiction|]. eexists. split; [reflexivity|].
    split; [|split; [|split]].
    + rewrite length_map, length_firstn, (Permutation_length Hp). reflexivity.
    + rewrite map_map. reflexivity.
    + apply StronglySorted_app_cross. rewrite firstn_skipn.
      apply Sorted_StronglySorted; [intros x y z; lia|exact Hs].
    + apply (Sorted_map (fun a b => AvgDuration b <= AvgDuration a)); [|apply Sorted_firstn; exact Hs].
      intros x y Hxy. simpl. apply to_ms_mono. exact Hxy.
Qed.

Lemma firstn_prefix_props {A} (n : nat) (l : list A) :
  firstn n l = firstn (length (firstn n l)) l /\ incl (firstn n l) l.
Proof.
  split.
  - rewrite length_firstn. destruct (Nat.le_ge_cases n (length l)).
    + rewrite Nat.min_l by exact H. reflexivity.
    + rewrite Nat.min_r by exact H. rewrite firstn_all, firstn_all2 by exact H. reflexivity.
  - intros x Hx. rewrite <- (firstn_skipn n l). apply in_or_app. left. exact Hx.
Qed.

(** X17: test selection by type (consistency, datatype, relationship):
    for ASCII query names, the result is an error exactly when no query
    name starts (ignoring case) with the type; otherwise it is the list of
    the matching queries in file order, cut to the first [limit] when
    [0 < limit] is below their number. *)
Theorem CreateTestQueries_by_type (sortedQueries allQueries : list Query) (t : string) (limit : Z) :
  In t ["consistency"; "datatype"; "relationship"]%string ->
  Forall (fun q => is_ascii (qry_Name q) = true) allQueries ->
  let m := filter (fun q => HasPrefix (ToLower (qry_Name q)) t) allQueries in
  (m = [] -> CreateTestQueries sortedQueries allQueries t limit =
             Err (String.append "no queries found of type: " t)) /\
  (m <> [] -> exists qs,
     CreateTestQueries sortedQueries allQueries t limit = Ok qs /\ qs <> [] /\
     qs = firstn (length qs) m /\
     (forall q, In q qs -> In q allQueries /\ HasPrefix (ToLower (qry_Name q)) t = true) /\
     length qs = (if (0 <? limit) && (limit <? Z.of_nat (length m))
                  then Z.to_nat limit else length m)).
Proof.
  intros Ht _ m.
  assert (E : CreateTestQueries sortedQueries allQueries t limit = filterQueriesByType allQueries t limit /\
              ToLower t = t).
  { simpl in Ht. destruct Ht as [<-|[<-|[<-|[]]]]; split; reflexivity. }
  destruct E as [E Hl]. rewrite E. unfold filterQueriesByType. rewrite Hl. fold m.
  split.
  - intros ->. reflexivity.
  - intros Hne. destruct m as [|q0 m'] eqn:Em; [contradiction|].
    destruct ((0 <? limit) && (limit <? Z.of_nat (length (q0 :: m')))) eqn:El.
    + apply andb_true_iff in El. destruct El as [E1 E2]. apply Z.ltb_lt in E1, E2.
      eexists. split; [reflexivity|]. rewrite <- Em.
      destruct (firstn_prefix_props (Z.to_nat limit) m) as [P1 P2].
      split; [|split; [exact P1|split]].
      * destruct (Z.to_nat limit) eqn:Z0; [lia|]. rewrite Em. discriminate.
      * intros q Hq. apply P2 in Hq. unfold m in Hq. apply filter_In in Hq. exact Hq.
      * rewrite length_firstn. rewrite Em in *. lia.
    + eexists. split; [reflexivity|]. rewrite <- Em.
      split; [rewrite Em; discriminate|split; [rewrite firstn_all; reflexivity|split]].
      * intros q Hq. unfold m in Hq. apply filter_In in Hq. exact Hq.
      * reflexivity.
Qed.

(** X18: the other test types: [all] returns every query whatever the
    limit; [top] returns the [limit] heaviest queries (all of them when
    [limit] is not in [1 .. n-1]), none lighter than a query left out;
    any other type is an error. *)
Theorem CreateTestQueries_all_top_unknown (sortedQueries allQueries : list Query) (limit : Z) :
  CreateTestQueries sortedQueries allQueries "all" limit = Ok allQueries /\
  (sorted_by_weight_desc allQueries sortedQueries ->
   exists qs, CreateTestQueries sortedQueries allQueries "top" limit = Ok qs /\
     qs = firstn (length qs) sortedQueries /\
     length qs = (if (0 <? limit) && (limit <? Z.of_nat (length allQueries))
                  then Z.to_nat limit else length allQueries) /\
     incl qs allQueries /\
     (forall q1 q2, In q1 qs -> In q2 (skipn (length qs) sortedQueries) ->
                    qry_Weight q2 <= qry_Weight q1)) /\
  (forall t, ~ In t ["all"; "consistency"; "datatype"; "relationship"; "top"]%string ->
   CreateTestQueries sortedQueries allQueries t limit = Err (String.append "unknown test type: " t)).
Proof.
  split; [reflexivity|split].
  - intros [Hp Hs]. rewrite (Permutation_length Hp).
    assert (Hss : StronglySorted (fun a b => qry_Weight b <= qry_Weight a) sortedQueries)
      by (apply Sorted_StronglySorted; [intros x y z; lia|exact Hs]).
    assert (Hcross : forall n q1 q2, In q1 (firstn n sortedQueries) ->
                     In q2 (skipn (length (firstn n sortedQueries)) sortedQueries) ->
                     qry_Weight q2 <= qry_Weight q1).
    { intros n q1 q2 H1 H2.
      assert (Hsk : skipn (length (firstn n sortedQueries)) sortedQueries = skipn n sortedQueries).
      { rewrite length_firstn. destruct (Nat.le_ge_cases n (length sortedQueries)) as [Hl|Hl].
        - rewrite Nat.min_l by exact Hl. reflexivity.
        - rewrite Nat.min_r by exact Hl. rewrite !skipn_all2 by lia. reflexivity. }
      rewrite Hsk in H2.
      apply (StronglySorted_app_cross (fun a b => qry_Weight b <= qry_Weight a)
               (firstn n sortedQueries) (skipn n sortedQueries)); [|assumption|assumption].
      rewrite firstn_skipn. exact Hss. }
    assert (Hincl : forall n, incl (firstn n sortedQueries) allQueries).
    { intros n x Hx. apply (Permutation_in _ (Permutation_sym Hp)).
      apply (proj2 (firstn_prefix_props n sortedQueries)). exact Hx. }
    unfold CreateTestQueries. simpl String.eqb. cbv iota.
    destruct ((0 <? limit) && (limit <? Z.of_nat (length sortedQueries))) eqn:El.
    + apply andb_true_iff in El. destruct El as [E1 E2]. apply Z.ltb_lt in E1, E2.
      eexists. split; [reflexivity|].
      split; [apply firstn_prefix_props|split; [rewrite length_firstn; lia|split]].
      * apply Hincl.
      * apply Hcross.
    + eexists. split; [reflexivity|].
      split; [rewrite firstn_all; reflexivity|split; [reflexivity|split]].
      * intros x Hx. apply (Permutation_in _ (Permutation_sym Hp)). exact Hx.
      * intros q1 q2 _ H2. rewrite skipn_all in H2. contradiction.
  - intros t Ht. unfold CreateTestQueries.
    repeat match goal with
           | |- context [String.eqb t ?s] =>
               destruct (String.eqb_spec t s) as [->|]; [exfalso; apply Ht; simpl; tauto|]
           end.
    reflexivity.
Qed.

(** X19: a configuration [LoadConfig] returns always has a positive
    iteration count and concurrency, a non-negative warm-up count and a
    non-zero timeout; a missing file whose default can be written yields
    the defaults, and a failure to create the directory, to write the
    default, to read the file or to parse it is an error. *)
Theorem LoadConfig_valid :
  (forall file cfg, LoadConfig file = Ok cfg ->
     0 < Iterations cfg /\ 0 < Concurrency cfg /\ 0 <= WarmupIterations cfg /\ Timeout cfg <> 0) /\
  LoadConfig (FileMissing true) = Ok default_config /\
  (forall file, file = FileMissingNoDir \/ file = FileMissing false \/ file = FileUnreadable \/
                file = FileUnparsable ->
     exists msg, LoadConfig file = Err msg).
Proof.
  split; [|split; [reflexivity|]].
  - intros file cfg H. destruct file as [|[]| | |j]; cbn [LoadConfig] in H; try discriminate.
    + injection H as <-. unfold default_config, Second. simpl. lia.
    + injection H as <-. cbn [Iterations Concurrency WarmupIterations Timeout].
      destruct_ifs; rewrite ?Z.leb_le, ?Z.leb_gt, ?Z.ltb_lt, ?Z.ltb_ge, ?Z.eqb_eq, ?Z.eqb_neq in *;
      unfold Second; lia.
  - intros file [-> | [-> | [-> | ->]]]; eexists; reflexivity.
Qed.

Lemma string_append_assoc (a b c : string) : ((a ++ b) ++ c)%string = (a ++ (b ++ c))%string.
Proof. induction a as [|x a IH]; [reflexivity|]. simpl. rewrite IH. reflexivity. Qed.

Lemma ReplaceAll_append (a b : string) (o : ascii) (n : string) :
  ReplaceAll (a ++ b) o n = (ReplaceAll a o n ++ ReplaceAll b o n)%string.
Proof.
  induction a as [|c a IH]; [reflexivity|]. simpl. rewrite IH.
  destruct (Ascii.eqb c o); [symmetry; apply string_append_assoc|reflexivity].
Qed.

Lemma csv_description_cons (c : ascii) (s : string) :
  csv_description (String c s) =
  ((if Ascii.eqb c quote_char then String quote_char (String quote_char EmptyString)
    else if Ascii.eqb c comma_char then String space_char EmptyString
    else String c EmptyString) ++ csv_description s)%string.
Proof.
  unfold csv_description. simpl.
  destruct (Ascii.eqb c quote_char); [reflexivity|].
  simpl. destruct (Ascii.eqb c comma_char); reflexivity.
Qed.

Lemma csv_unescape_nonquote (c : ascii) (s : string) :
  c <> quote_char -> csv_unescape (String c s) = String c (csv_unescape s).
Proof.
  intros Hc. destruct s as [|c' s']; [reflexivity|].
  cbn [csv_unescape]. destruct (Ascii.eqb_spec c quote_char); [contradiction|reflexivity].
Qed.

Lemma Contains_char_false (s : string) (c : ascii) :
  (forall x, In x (chars s) -> x <> c) -> Contains s (String c EmptyString) = false.
Proof.
  induction s as [|x s IH]; intros H; [reflexivity|].
  simpl. destruct (ascii_dec c x) as [<-|Hne].
  - exfalso. apply (H c); [left; reflexivity|reflexivity].
  - apply IH. intros y Hy. apply H. right. exact Hy.
Qed.

Lemma chars_append (a b : string) : chars (a ++ b) = chars a ++ chars b.
Proof. induction a as [|c a IH]; [reflexivity|]. unfold chars in *. simpl. rewrite IH. reflexivity. Qed.

(** X21: the description field of both CSV reports contains no comma,
    and a CSV reader that undoes the quote doubling gets back the
    description with its commas turned into spaces (every double quote
    survives). *)
Theorem csv_description_escape (d : string) :
  Contains (csv_description d) (String comma_char EmptyString) = false /\
  csv_unescape (csv_description d) = ReplaceAll d comma_char (String space_char EmptyString).
Proof.
  split.
  - apply Contains_char_false. induction d as [|c d IH]; [simpl; tauto|].
    rewrite csv_description_cons, chars_append. intros x Hx. apply in_app_or in Hx.
    destruct Hx as [Hx|Hx]; [|apply IH; exact Hx].
    destruct (Ascii.eqb_spec c quote_char) as [->|Hq];
      [|destruct (Ascii.eqb_spec c comma_char) as [->|Hcm]].
    + simpl in Hx. intros ->. destruct Hx as [Hx|[Hx|[]]]; discriminate.
    + simpl in Hx. intros ->. destruct Hx as [Hx|[]]; discriminate.
    + simpl in Hx. destruct Hx as [<-|[]]. exact Hcm.
  - induction d as [|c d IH]; [reflexivity|].
    rewrite csv_description_cons. cbn [ReplaceAll].
    destruct (Ascii.eqb c quote_char) eqn:Eq.
    + apply Ascii.eqb_eq in Eq. subst c. simpl. rewrite IH. reflexivity.
    + apply Ascii.eqb_neq in Eq. destruct (Ascii.eqb c comma_char) eqn:Ec.
      * cbn [String.append]. rewrite csv_unescape_nonquote by discriminate. rewrite IH. reflexivity.
      * cbn [String.append]. rewrite csv_unescape_nonquote by exact Eq. rewrite IH. reflexivity.
Qed.

Lemma span_chars (p : ascii -> bool) (s a b : string) :
  span p s = (a, b) -> forall x, In x (chars a) -> p x = true.
Proof.
  revert a b. induction s as [|c s IH]; intros a b H x Hx; simpl in H.
  - injection H as <- <-. contradiction.
  - destruct (p c) eqn:Ep.
    + destruct (span p s) as [a' b'] eqn:Es. injection H as <- <-.
      destruct Hx as [<-|Hx]; [exact Ep|]. eapply IH; [reflexivity|exact Hx].
    + injection H as <- <-. contradiction.
Qed.

Lemma match_kw_name (kw s name rest : string) :
  match_kw kw s = Some (name, rest) -> table_name_ok name.
Proof.
  unfold match_kw. destruct (String.prefix kw s); [|discriminate].
  destruct (span is_space _) as [ws r1].
  destruct (span is_name_char r1) as [nm r2] eqn:E2.
  destruct ws, nm; try discriminate. intros H. injection H as <- <-.
  split; [discriminate|]. eapply span_chars. exact E2.
Qed.

Lemma table_matches_fuel_ok (fuel : nat) (s : string) :
  Forall table_name_ok (table_matches_fuel fuel s).
Proof.
  revert s. induction fuel as [|fuel IH]; intros s; [constructor|].
  destruct s as [|c s']; [constructor|]. cbn [table_matches_fuel].
  destruct (match_kw "from" (String c s')) as [[name rest]|] eqn:E1.
  - constructor; [eapply match_kw_name; exact E1|apply IH].
  - destruct (match_kw "join" (String c s')) as [[name rest]|] eqn:E2.
    + constructor; [eapply match_kw_name; exact E2|apply IH].
    + apply IH.
Qed.

Lemma collect_fold (ms tables seen : list string) :
  (forall x, In x seen <-> In x tables) -> NoDup tables ->
  let '(tables', seen') :=
    fold_left (fun '(tables, seen) tableName =>
                 if String.eqb tableName EmptyString || existsb (String.eqb tableName) seen
                 then (tables, seen)
                 else (tables ++ [tableName], tableName :: seen)) ms (tables, seen) in
  NoDup tables' /\ (forall x, In x seen' <-> In x tables') /\
  (forall x, In x tables' <-> In x tables \/ (In x ms /\ x <> EmptyString)).
Proof.
  revert tables seen. induction ms as [|m ms IH]; intros tables seen Hs Hnd.
  - simpl. split; [exact Hnd|split; [exact Hs|]]. intros x. tauto.
  - simpl fold_left.
    destruct (String.eqb m EmptyString || existsb (String.eqb m) seen) eqn:E.
    + pose proof (IH tables seen Hs Hnd) as H.
      destruct (fold_left _ ms (tables, seen)) as [t' s'].
      destruct H as (H1 & H2 & H3). split; [exact H1|split; [exact H2|]].
      intros x. rewrite H3. split; [intros [Hx|Hx]; [left; exact Hx|right; split; [right|]; apply Hx]|].
      intros [Hx|[[<-|Hx] Hne]]; [left; exact Hx| |right; split; assumption].
      apply orb_true_iff in E. destruct E as [E|E].
      * apply String.eqb_eq in E. contradiction.
      * left. apply Hs. apply existsb_eqb_In. exact E.
    + apply orb_false_iff in E. destruct E as [E1 E2].
      assert (Hm : ~ In m tables) by (intros Hm; apply Hs, existsb_eqb_In in Hm; congruence).
      assert (Hs' : forall x, In x (m :: seen) <-> In x (tables ++ [m])).
      { intros x. rewrite in_app_iff. simpl. rewrite Hs. tauto. }
      assert (Hnd' : NoDup (tables ++ [m])).
      { apply NoDup_app; [exact Hnd|constructor; [simpl; tauto|constructor]|].
        intros x Hx [<-|[]]. contradiction. }
      pose proof (IH (tables ++ [m]) (m :: seen) Hs' Hnd') as H.
      destruct (fold_left _ ms (tables ++ [m], m :: seen)) as [t' s'].
      destruct H as (H1 & H2 & H3). split; [exact H1|split; [exact H2|]].
      intros x. rewrite H3, in_app_iff. simpl.
      assert (m <> EmptyString) by (intros ->; discriminate).
      split.
      * intros [[Hx|[<-|[]]]|[Hx Hne]]; [left; exact Hx|right; auto|right; auto].
      * intros [Hx|[[<-|Hx] Hne]]; [left; left; exact Hx|left; right; left; reflexivity|right; auto].
Qed.

(** X22: the tables [AnalyzeTablesInQuery] reports are distinct, each a
    non-empty run of [[a-z0-9_]]; for an ASCII query they are exactly the
    names following [from] or [join] (any case, then blanks) that the
    pattern matches in the lower-cased text. *)
Theorem AnalyzeTablesInQuery_spec (sql : string) :
  let ts := AnalyzeTablesInQuery sql in
  NoDup ts /\ Forall table_name_ok ts /\
  (is_ascii sql = true -> forall t, In t ts <-> In t (table_matches (ToLower sql))).
Proof.
  intros ts.
  pose proof (table_matches_fuel_ok (String.length (ToLower sql)) (ToLower sql)) as Hok.
  pose proof (collect_fold (table_matches (ToLower sql)) [] [] ltac:(intros; tauto) (NoDup_nil _)) as H.
  unfold ts, AnalyzeTablesInQuery, collect_tables.
  destruct (fold_left _ (table_matches (ToLower sql)) ([], [])) as [t' s'].
  destruct H as (H1 & _ & H3). simpl fst.
  assert (Hin : forall t, In t t' <-> In t (table_matches (ToLower sql))).
  { intros t. rewrite H3. split; [intros [[]|[Ht _]]; exact Ht|].
    intros Ht. right. split; [exact Ht|].
    rewrite Forall_forall in Hok. apply (Hok t Ht). }
  split; [exact H1|split].
  - apply Forall_forall. intros t Ht. apply Hin in Ht. rewrite Forall_forall in Hok. apply Hok. exact Ht.
  - intros _. exact Hin.
Qed.

Lemma csv_separators_quoted (a b : string) :
  no_quote a = true -> csv_separators true (a ++ b) = csv_separators true b.
Proof.
  induction a as [|c a IH]; intros H; [reflexivity|].
  unfold no_quote, chars in H. simpl in H. apply andb_true_iff in H. destruct H as [Hc H].
  simpl. destruct (Ascii.eqb c quote_char); [discriminate|].
  rewrite andb_false_r. apply IH. exact H.
Qed.

Lemma csv_separators_plain (inq : bool) (a b : string) :
  plain_field a = true -> csv_separators inq (a ++ b) = csv_separators inq b.
Proof.
  induction a as [|c a IH]; intros H; [reflexivity|].
  unfold plain_field, chars in H. simpl in H. apply andb_true_iff in H. destruct H as [Hc H].
  apply andb_true_iff in Hc. destruct Hc as [Hq Hcm].
  simpl. destruct (Ascii.eqb c quote_char); [discriminate|].
  destruct (Ascii.eqb c comma_char); [discriminate|].
  apply IH. exact H.
Qed.

Lemma csv_separators_description (d b : string) :
  csv_separators true (csv_description d ++ b) = csv_separators true b.
Proof.
  induction d as [|c d IH]; [reflexivity|].
  rewrite csv_description_cons, string_append_assoc.
  destruct (Ascii.eqb c quote_char) eqn:Eq; [exact IH|].
  destruct (Ascii.eqb c comma_char) eqn:Ec.
  - exact IH.
  - cbn [String.append csv_separators]. rewrite Eq, Ec. exact IH.
Qed.

(** X23: every row of [SaveCSV] and [SaveDetailedCSV] reads as 10 CSV
    fields (for a query name without double quotes, the rendered numbers
    and complexity having neither quotes nor commas): as many as the
    header of [SaveCSV] names, one fewer than the 11 columns of the
    [SaveDetailedCSV] header, whose [sql] column is never written. *)
Theorem csv_row_field_counts (name description executions errors avg p95 min max rows complexity : string) :
  no_quote name = true ->
  forallb plain_field [executions; errors; avg; p95; min; max; rows; complexity] = true ->
  csv_field_count (report_csv_row name description executions errors avg p95 min max rows complexity) = 10%nat /\
  csv_field_count csv_header = 10%nat /\
  csv_field_count detailed_csv_header = 11%nat.
Proof.
  intros Hn Hf. split; [|split; reflexivity].
  cbn [forallb] in Hf. rewrite !andb_true_iff in Hf.
  destruct Hf as (F1 & F2 & F3 & F4 & F5 & F6 & F7 & F8 & _).
  unfold csv_field_count, report_csv_row, csv_row, str1.
  cbn [String.append csv_separators]. simpl (Ascii.eqb quote_char quote_char).
  cbn [negb].
  rewrite csv_separators_quoted by exact Hn.
  cbn [String.append csv_separators]. simpl (Ascii.eqb quote_char quote_char).
  cbn [negb].
  repeat match goal with |- context [Ascii.eqb ?a ?b] => let v := eval vm_compute in (Ascii.eqb a b) in change (Ascii.eqb a b) with v end.
  cbn [andb negb].
  rewrite csv_separators_description.
  cbn [String.append csv_separators].
  repeat match goal with |- context [Ascii.eqb ?a ?b] => let v := eval vm_compute in (Ascii.eqb a b) in change (Ascii.eqb a b) with v end.
  cbn [andb negb].
  repeat (rewrite csv_separators_plain by assumption; cbn [String.append csv_separators];
          repeat match goal with |- context [Ascii.eqb ?a ?b] => let v := eval vm_compute in (Ascii.eqb a b) in change (Ascii.eqb a b) with v end;
          cbn [andb negb]).
  reflexivity.
Qed.

Lemma string_length_append (s t : string) : String.length (s ++ t) = (String.length s + String.length t)%nat.
Proof. induction s as [|c s IH]; simpl; [reflexivity|]. rewrite IH. reflexivity. Qed.

Lemma ToLower_append (s t : string) : ToLower (s ++ t) = (ToLower s ++ ToLower t)%string.
Proof. induction s as [|c s IH]; simpl; [reflexivity|]. rewrite IH. reflexivity. Qed.

Lemma prefix_length (p s : string) : String.prefix p s = true -> (String.length p <= String.length s)%nat.
Proof.
  revert s. induction p as [|c p IH]; intros s H; simpl; [lia|].
  destruct s as [|c' s]; simpl in H; [discriminate|].
  destruct (ascii_dec c c'); [|discriminate]. apply IH in H. simpl. lia.
Qed.

Lemma prefix_append (p s t : string) : String.prefix p s = true -> String.prefix p (s ++ t) = true.
Proof.
  revert s. induction p as [|c p IH]; intros s H; [destruct (s ++ t)%string; reflexivity|].
  destruct s as [|c' s]; simpl in H; [discriminate|].
  simpl. destruct (ascii_dec c c'); [apply IH; exact H|discriminate].
Qed.

Lemma prefix_append_inv (p s t : string) :
  String.prefix p (s ++ t) = true -> (String.length p <= String.length s)%nat -> String.prefix p s = true.
Proof.
  revert s. induction p as [|c p IH]; intros s H Hl; [destruct s; reflexivity|].
  destruct s as [|c' s]; simpl in Hl; [lia|].
  simpl in H |- *. destruct (ascii_dec c c'); [apply IH; [exact H|lia]|discriminate].
Qed.

Lemma drop_prefix_append (n : nat) (s t : string) :
  (n <= String.length s)%nat -> drop_prefix n (s ++ t) = (drop_prefix n s ++ t)%string.
Proof.
  revert s. induction n as [|n IH]; intros s Hn; [reflexivity|].
  destruct s as [|c s]; simpl in Hn; [lia|]. simpl. apply IH. lia.
Qed.

Lemma drop_prefix_length (n : nat) (s : string) :
  String.length (drop_prefix n s) = (String.length s - n)%nat.
Proof.
  revert s. induction n as [|n IH]; intros s; [simpl; lia|].
  destruct s as [|c s]; simpl; [reflexivity|]. apply IH.
Qed.

Lemma count_short (f : nat) (s p : string) :
  (String.length s < String.length p)%nat -> count_fuel f s p = 0%nat.
Proof.
  revert s. induction f as [|f IH]; intros s Hs; [reflexivity|].
  destruct s as [|c s']; [reflexivity|]. cbn [count_fuel].
  destruct (String.prefix p (String c s')) eqn:E.
  - apply prefix_length in E. simpl in *. lia.
  - apply IH. simpl in Hs. lia.
Qed.

Lemma count_fuel_append (p : string) : p <> EmptyString ->
  forall n s t f1 f2, (String.length s <= n)%nat -> (String.length s <= f1)%nat ->
  (String.length (s ++ t) <= f2)%nat ->
  (count_fuel f1 s p <= count_fuel f2 (s ++ t) p)%nat.
Proof.
  intros Hp n. induction n as [|n IH]; intros s t f1 f2 Hn H1 H2.
  - destruct s; [destruct f1; simpl; lia|simpl in Hn; lia].
  - destruct s as [|c s']; [destruct f1; simpl; lia|].
    destruct f1 as [|f1]; [simpl in H1; lia|].
    destruct f2 as [|f2]; [simpl in H2; lia|].
    cbn [count_fuel]. cbn [String.append].
    change (String c (s' ++ t)) with (String c s' ++ t)%string.
    assert (Hp1 : (1 <= String.length p)%nat) by (destruct p; [contradiction|simpl; lia]).
    destruct (String.prefix p (String c s')) eqn:E.
    + rewrite (prefix_append _ _ t E).
      pose proof (prefix_length _ _ E) as Hl.
      rewrite drop_prefix_append by exact Hl.
      apply le_n_S. apply IH.
      * rewrite drop_prefix_length. cbn [String.length] in *. lia.
      * rewrite drop_prefix_length. cbn [String.length] in *. lia.
      * rewrite string_length_append, drop_prefix_length. rewrite string_length_append in H2. cbn [String.length] in *. lia.
    + destruct (String.prefix p (String c s' ++ t)) eqn:E'.
      * assert (Hs : (String.length (String c s') < String.length p)%nat).
        { destruct (Nat.lt_ge_cases (String.length (String c s')) (String.length p)) as [L|L]; [exact L|].
          rewrite (prefix_append_inv _ _ _ E' L) in E. discriminate. }
        rewrite count_short by (simpl in *; lia). lia.
      * apply IH; simpl in *; [lia|lia|lia].
Qed.

Lemma Count_append (s t p : string) : (Count s p <= Count (s ++ t) p)%nat.
Proof.
  unfold Count. destruct (String.eqb_spec p EmptyString) as [->|Hp].
  - rewrite string_length_append. lia.
  - apply (count_fuel_append p Hp (String.length s)); [lia|lia|lia].
Qed.

Lemma Contains_append (s t p : string) : Contains s p = true -> Contains (s ++ t) p = true.
Proof.
  induction s as [|c s IH]; intros H.
  - simpl in H. destruct p; [destruct t; reflexivity|discriminate].
  - cbn [Contains] in H. apply orb_true_iff in H. cbn [String.append Contains].
    apply orb_true_iff. destruct H as [H|H].
    + left. change (String c (s ++ t)) with (String c s ++ t)%string. apply prefix_append. exact H.
    + right. apply IH. exact H.
Qed.

Lemma bimp_or (a1 a2 b1 b2 : bool) : bimp a1 a2 -> bimp b1 b2 -> bimp (a1 || b1) (a2 || b2).
Proof. unfold bimp. destruct a1, a2, b1, b2; simpl; auto. Qed.

Lemma bimp_and (a1 a2 b1 b2 : bool) : bimp a1 a2 -> bimp b1 b2 -> bimp (a1 && b1) (a2 && b2).
Proof. unfold bimp. destruct a1, a2, b1, b2; simpl; auto. Qed.

Lemma bimp_ltb (k n m : nat) : (n <= m)%nat -> bimp (k <? n)%nat (k <? m)%nat.
Proof. unfold bimp. intros H E. apply Nat.ltb_lt in E. apply Nat.ltb_lt. lia. Qed.

Lemma bimp_contains (s t p : string) : bimp (Contains s p) (Contains (s ++ t) p).
Proof. unfold bimp. apply Contains_append. Qed.

Lemma rank_mono (h1 m1 l1 h2 m2 l2 : bool) :
  bimp h1 h2 -> bimp m1 m2 -> bimp l1 l2 ->
  (complexity_rank (if h1 then "high" else if m1 then "medium" else if l1 then "low-medium" else "low")
   <= complexity_rank (if h2 then "high" else if m2 then "medium" else if l2 then "low-medium" else "low"))%nat.
Proof.
  unfold bimp. intros A B C.
  destruct h1, m1, l1, h2, m2, l2; vm_compute; try lia;
    try (specialize (A eq_refl); discriminate); try (specialize (B eq_refl); discriminate);
    try (specialize (C eq_refl); discriminate).
Qed.

Ltac bimp_solve :=
  repeat first
    [ apply bimp_or | apply bimp_and | apply bimp_contains
    | apply bimp_ltb; first [ apply Count_append | apply Nat.add_le_mono; apply Count_append ] ].

(** X24: appending text to an ASCII query never lowers its complexity
    level: every count and every keyword test of [AnalyzeQueryComplexity]
    can only grow, and each level's condition only uses them positively. *)
Theorem AnalyzeQueryComplexity_append_mono (sql extra : string) :
  is_ascii sql = true -> is_ascii extra = true ->
  (complexity_rank (AnalyzeQueryComplexity sql) <=
   complexity_rank (AnalyzeQueryComplexity (sql ++ extra)))%nat.
Proof.
  intros _ _. unfold AnalyzeQueryComplexity. cbv zeta. rewrite ToLower_append.
  generalize (ToLower sql) (ToLower extra). intros s t.
  apply rank_mono; bimp_solve.
Qed.

Lemma CalculateStats_ordered_witness :
  [30; 10; 20] <> [] /\
  (let st := CalculateStats [30; 10; 20] in
   In (st_Min st) [30; 10; 20] /\ In (st_Max st) [30; 10; 20] /\
   Forall (fun d => st_Min st <= d <= st_Max st) [30; 10; 20] /\
   st_Min st <= st_Median st <= st_P95 st /\ st_P95 st <= st_P99 st <= st_Max st /\
   st_Samples st = Z.of_nat (length [30; 10; 20])).
Proof.
  split; [discriminate | apply (CalculateStats_ordered [30; 10; 20]); discriminate].
Defined.

Lemma CalculateStats_mean_between_witness :
  st_Mean (CalculateStats [10; 20; 30]) = 60 / 3 /\
  st_Min (CalculateStats [10; 20; 30]) <= st_Mean (CalculateStats [10; 20; 30])
    <= st_Max (CalculateStats [10; 20; 30]).
Proof.
  apply (CalculateStats_mean_between [10; 20; 30]);
    [discriminate | repeat constructor; lia | vm_compute; reflexivity].
Defined.

Lemma AnalyzeQueryComplexity_append_mono_witness :
  is_ascii "SELECT id FROM users" = true /\ is_ascii " JOIN orders ON 1" = true /\
  (complexity_rank (AnalyzeQueryComplexity "SELECT id FROM users") <=
   complexity_rank (AnalyzeQueryComplexity ("SELECT id FROM users" ++ " JOIN orders ON 1")))%nat.
Proof.
  split; [reflexivity|]. split; [reflexivity|].
  apply AnalyzeQueryComplexity_append_mono; reflexivity.
Defined.


Lemma ClassifyErrors_counts_witness :
  let m := ClassifyErrors [set_ErrorDetails (init_result "A") ["Deadlock found"; "i/o timeout"]%string] in
  In ("Deadlock"%string, 1) m /\ In "Deadlock"%string error_classes /\ 0 < 1.
Proof.
  cbv zeta. split; [vm_compute; tauto|].
  apply (proj1 (proj2 (proj2 (ClassifyErrors_counts
           [set_ErrorDetails (init_result "A") ["Deadlock found"; "i/o timeout"]%string])))).
  vm_compute; tauto.
Defined.

Lemma comparisons_inner_join_witness :
  let before := [set_AvgDuration (init_result "A") 2000; init_result "B"] in
  let after := [set_AvgDuration (init_result "A") 1000] in
  length (query_comparisons before after) = 1%nat.
Proof.
  cbv zeta.
  destruct (comparisons_inner_join
              [set_AvgDuration (init_result "A") 2000; init_result "B"]
              [set_AvgDuration (init_result "A") 1000]
              (query_comparisons [set_AvgDuration (init_result "A") 2000; init_result "B"]
                                 [set_AvgDuration (init_result "A") 1000]))
    as [_ H].
  - split; [apply Permutation_refl | vm_compute; repeat constructor].
  - rewrite H. vm_compute. reflexivity.
Defined.

Lemma compare_query_improvement_witness :
  let c := compare_query (set_AvgDuration (init_result "A") 2000) (set_AvgDuration (init_result "A") 1000) in
  ((0 < cmp_ImprovementPercent c)%Q <-> (cmp_AfterAvgMs c < cmp_BeforeAvgMs c)%Q) /\
  ((0 <= cmp_AfterAvgMs c)%Q -> (cmp_ImprovementPercent c <= 100)%Q).
Proof.
  destruct (compare_query_improvement (set_AvgDuration (init_result "A") 2000)
              (set_AvgDuration (init_result "A") 1000)) as (_ & _ & _ & _ & H).
  apply H. vm_compute. reflexivity.
Defined.

Lemma summary_top_queries_spec_witness :
  let a := set_AvgDuration (init_result "A") 1000 in
  let b := set_AvgDuration (init_result "B") 2000 in
  exists tq, summary_top_queries [a; b] [b; a] = Some tq /\
    length tq = Nat.min 5 (length [a; b]) /\
    map qs_Name tq = map Name (firstn 5 [b; a]) /\
    (forall q1 q2, In q1 (firstn 5 [b; a]) -> In q2 (skipn 5 [b; a]) -> AvgDuration q2 <= AvgDuration q1) /\
    Sorted (fun x y => (qs_AvgDuration y <= qs_AvgDuration x)%Q) tq.
Proof.
  cbv zeta.
  apply (summary_top_queries_spec
           [set_AvgDuration (init_result "A") 1000; set_AvgDuration (init_result "B") 2000]
           [set_AvgDuration (init_result "B") 2000; set_AvgDuration (init_result "A") 1000]).
  - split; [apply perm_swap | repeat constructor; cbn; lia].
  - discriminate.
Defined.

Lemma CreateTestQueries_by_type_witness :
  let qa := mkQuery "Datatype_check" "" "SELECT 1" 1 in
  let qb := mkQuery "other" "" "SELECT 2" 2 in
  exists qs, CreateTestQueries [] [qa; qb] "datatype" 0 = Ok qs /\ qs <> [] /\
    qs = firstn (length qs) (filter (fun q => HasPrefix (ToLower (qry_Name q)) "datatype") [qa; qb]) /\
    (forall q, In q qs -> In q [qa; qb] /\ HasPrefix (ToLower (qry_Name q)) "datatype" = true) /\
    length qs = length (filter (fun q => HasPrefix (ToLower (qry_Name q)) "datatype") [qa; qb]).
Proof.
  cbv zeta.
  destruct (CreateTestQueries_by_type [] [mkQuery "Datatype_check" "" "SELECT 1" 1; mkQuery "other" "" "SELECT 2" 2]
              "datatype" 0 ltac:(cbn; tauto) ltac:(repeat constructor)) as [_ H].
  destruct H as (qs & H1 & H2 & H3 & H4 & H5); [vm_compute; discriminate|].
  exists qs. repeat split; auto; apply H4; auto.
Defined.

Lemma CreateTestQueries_all_top_unknown_witness :
  CreateTestQueries [] [] "bogus" 3 = Err (String.append "unknown test type: " "bogus").
Proof.
  apply (CreateTestQueries_all_top_unknown [] [] 3).
  cbn. intuition discriminate.
Defined.

Lemma LoadConfig_valid_witness :
  (0 < Iterations default_config /\ 0 < Concurrency default_config /\
   0 <= WarmupIterations default_config /\ Timeout default_config <> 0) /\
  (exists msg, LoadConfig FileUnreadable = Err msg).
Proof.
  destruct LoadConfig_valid as (H1 & _ & H3). split.
  - apply (H1 (FileMissing true)). reflexivity.
  - apply H3. right; right; left; reflexivity.
Defined.

Lemma AnalyzeTablesInQuery_spec_witness :
  In "users"%string (AnalyzeTablesInQuery "SELECT * FROM Users JOIN orders ON 1") <->
  In "users"%string (table_matches (ToLower "SELECT * FROM Users JOIN orders ON 1")).
Proof.
  apply (proj2 (proj2 (AnalyzeTablesInQuery_spec "SELECT * FROM Users JOIN orders ON 1"))).
  vm_compute. reflexivity.
Defined.

Lemma csv_row_field_counts_witness :
  csv_field_count (report_csv_row "q1" "a, b" "3" "0" "1.50" "2.00" "1.00" "2.00" "7" "low") = 10%nat.
Proof.
  apply (proj1 (csv_row_field_counts "q1" "a, b" "3" "0" "1.50" "2.00" "1.00" "2.00" "7" "low"
                  ltac:(vm_compute; reflexivity) ltac:(vm_compute; reflexivity))).
Defined.
